(** * nbrmd: notebooks as text (src/nbrmd/nbrmd.py)

    A shallow embedding of the orchestration layer of nbrmd: the
    markdown escaping of the text profiles, the text reader
    [TextNotebookReader.to_notebook], the text writer
    [TextNotebookWriter.writes] and the entry points [reads], [read],
    [writes], [write], [readf] and [writef].

    Python strings are [string], holding the UTF-8 bytes of their code
    points, Python lists are [list], Python [int]s are [Z], dictionaries
    with string keys are [gmap string _].  Code
    that raises, mutates objects or touches files runs in the monad [M]
    over a [World] made of an object store, a file system and a log of
    the observable calls. *)

From Stdlib Require Import ZArith String Ascii List Lia.
From stdpp Require Import base option list strings gmap.
From Equations Require Import Equations.

Local Open Scope string_scope.
Local Open Scope Z_scope.
Local Open Scope list_scope.

(** ** Python strings *)

Module PyStr.

(** A [string] holds the UTF-8 bytes of a Python string, whose
    elements are code points: the first byte of a code point tells how
    many bytes follow it, and these are continuation bytes (binary
    [10xxxxxx]). *)
Definition trail (c : ascii) : nat :=
  let n := nat_of_ascii c in
  if (n <? 192)%nat then 0%nat
  else if (n <? 224)%nat then 1%nat
  else if (n <? 240)%nat then 2%nat
  else if (n <? 248)%nat then 3%nat
  else 0%nat.

Definition continuation (c : ascii) : bool :=
  let n := nat_of_ascii c in (128 <=? n)%nat && (n <? 192)%nat.

(** The string without its first [n] bytes. *)
Fixpoint drop_bytes (n : nat) (s : string) : string :=
  match n, s with
  | O, _ => s
  | S _, EmptyString => EmptyString
  | S n', String _ s' => drop_bytes n' s'
  end.

(** [s[n:]] for [0 <= n]: the string without its first [n] code
    points. *)
Fixpoint skip (n : nat) (s : string) : string :=
  match n with
  | O => s
  | S n' =>
      match s with
      | EmptyString => EmptyString
      | String c s' => skip n' (drop_bytes (trail c) s')
      end
  end.

(** [len(s)]: the number of code points. *)
Fixpoint len (s : string) : nat :=
  match s with
  | EmptyString => O
  | String c s' => if continuation c then len s' else S (len s')
  end.

(** [s.startswith(p)] *)
Definition startswith (s p : string) : bool := String.prefix p s.

(** [s == t] on strings, as a boolean. *)
Definition eqb (s t : string) : bool := bool_decide (s = t).

(** [sep.join(l)] *)
Fixpoint join (sep : string) (l : list string) : string :=
  match l with
  | [] => ""
  | [x] => x
  | x :: rest => x +:+ sep +:+ join sep rest
  end.

(** The line feed, ['\n']. *)
Definition LF : string := String (ascii_of_nat 10) EmptyString.

End PyStr.

(** ** Format profile *)

(** [NOTEBOOK_EXTENSIONS] *)
Definition NOTEBOOK_EXTENSIONS : list string := [".ipynb"; ".Rmd"; ".py"; ".R"].

(** [markdown_comment(ext)] *)
Definition markdown_comment (ext : string) : string :=
  if PyStr.eqb ext ".Rmd" then ""
  else if PyStr.eqb ext ".R" then "#'"
  else "#".

(** ** Metadata values *)

#[local] Set Warnings "-register-all".

(** The JSON-like values a metadata mapping holds (floating point
    numbers are left out). *)
Inductive value : Type :=
  | VNone
  | VBool (b : bool)
  | VInt (z : Z)
  | VStr (s : string)
  | VList (l : list value)
  | VDict (d : gmap string value).

(** A metadata mapping: [nb.metadata], [cell.metadata]. *)
Abbreviation Metadata := (gmap string value).

(** Python truth value of a metadata value, as tested by [or], [not]
    and [if]. *)
Definition truthy (v : value) : bool :=
  match v with
  | VNone => false
  | VBool b => b
  | VInt z => negb (z =? 0)
  | VStr s => negb (PyStr.eqb s "")
  | VList l => match l with [] => false | _ => true end
  | VDict d => negb (bool_decide (dom d = ∅))
  end.

(** [v == s] for a string literal [s]: only a string equals a string. *)
Definition eq_str (v : value) (s : string) : bool :=
  match v with
  | VStr t => PyStr.eqb t s
  | _ => false
  end.

(** [d.get(key)]: the value, or [None]. *)
Definition get (d : Metadata) (key : string) : value :=
  default VNone (d !! key).

(** [d.get(key, dflt)] *)
Definition get_default (d : Metadata) (key : string) (dflt : value) : value :=
  default dflt (d !! key).

(** [a or b], on values already computed. *)
Definition py_or (a b : value) : value := if truthy a then a else b.

(** ** The notebook model (nbformat's [NotebookNode]s) *)

Record Cell : Type := new_cell {
  cell_type : string;
  source : string;
  cell_metadata : Metadata
}.

(** The contents of a notebook: [nb.cells] and [nb.metadata]. *)
Record Notebook : Type := Build_Notebook {
  cells : list Cell;
  metadata : Metadata
}.

(** ** Exceptions *)

Inductive exn : Type :=
  | KeyError (key : string)
  | TypeError (msg : string)
  | IndexError
  | AttributeError
  | Exception (msg : string)
  | OSError (msg : string)
  (** an exception raised inside a collaborator (parser, exporter,
      header codec, nbformat) *)
  | Failure (msg : string).

Inductive result (A : Type) : Type :=
  | Ok (a : A)
  | Raise (e : exn).
Arguments Ok {A} a.
Arguments Raise {A} e.

Definition result_map {A B} (f : A -> B) (r : result A) : result B :=
  match r with Ok a => Ok (f a) | Raise e => Raise e end.

(** ** The world: objects, files and observable calls *)

Definition loc := positive.

(** The object store.  A notebook object holds references to its
    metadata mapping and to its list of cells, which are objects of
    their own: two notebook objects may share them. *)
Record Store : Type := Build_Store {
  notebooks : gmap loc (loc * loc);
  dicts : gmap loc Metadata;
  lists : gmap loc (list Cell)
}.

Inductive event : Type :=
  | CallHeaderToMetadataAndCell (lines : list string)
  | CallTextToCell (lines : list string)
  | IoOpen (name mode : string)
  | IoRead (name : string)
  | IoWrite (name data : string)
  | IoClose (name : string).

Record World : Type := Build_World {
  store : Store;
  files : gmap string string;
  log : list event
}.

Definition empty_store : Store := Build_Store ∅ ∅ ∅.
Definition empty_world : World := Build_World empty_store ∅ [].

(** ** The monad of effectful code *)

Definition M (A : Type) : Type := World -> World * result A.

Definition ret {A} (a : A) : M A := fun w => (w, Ok a).
Definition raise {A} (e : exn) : M A := fun w => (w, Raise e).
Definition bind {A B} (c : M A) (k : A -> M B) : M B :=
  fun w => match c w with
           | (w', Ok a) => k a w'
           | (w', Raise e) => (w', Raise e)
           end.
(** A computation that cannot touch the world. *)
Definition lift {A} (r : result A) : M A := fun w => (w, r).

Declare Scope py_scope.
Delimit Scope py_scope with py.
Notation "'let*' x ':=' c 'in' k" := (bind c (fun x => k))
  (at level 10, x pattern, c at level 100, k at level 200) : py_scope.
Notation "c ';;' k" := (bind c (fun _ => k))
  (at level 100, k at level 200, right associativity) : py_scope.
Local Open Scope py_scope.

Definition emit (e : event) : M unit :=
  fun w => (Build_World (store w) (files w) (log w ++ [e]), Ok tt).

(** [for x in l: f(x)], collecting the results; stops at the first
    exception. *)
Fixpoint mapM {A B} (f : A -> M B) (l : list A) : M (list B) :=
  match l with
  | [] => ret []
  | x :: rest =>
      let* y := f x in
      let* ys := mapM f rest in
      ret (y :: ys)
  end.

(** ** Objects *)

(** A fresh address, not used by any of the three kinds of objects. *)
Definition fresh_loc (s : Store) : loc :=
  fresh (dom (notebooks s) ∪ dom (dicts s) ∪ dom (lists s)).

Definition alloc_dict (d : Metadata) : M loc :=
  fun w =>
    let s := store w in
    let l := fresh_loc s in
    (Build_World (Build_Store (notebooks s) (<[l := d]> (dicts s)) (lists s))
                 (files w) (log w), Ok l).

Definition alloc_list (cs : list Cell) : M loc :=
  fun w =>
    let s := store w in
    let l := fresh_loc s in
    (Build_World (Build_Store (notebooks s) (dicts s) (<[l := cs]> (lists s)))
                 (files w) (log w), Ok l).

Definition alloc_notebook (lm lc : loc) : M loc :=
  fun w =>
    let s := store w in
    let l := fresh_loc s in
    (Build_World (Build_Store (<[l := (lm, lc)]> (notebooks s)) (dicts s) (lists s))
                 (files w) (log w), Ok l).

(** Attribute access [nb.metadata] and [nb.cells] gives the references
    held by the notebook object; an address that holds no object of the
    expected kind has no such attribute. *)
Definition attr_metadata (nb : loc) : M loc :=
  fun w => match notebooks (store w) !! nb with
           | Some (lm, _) => (w, Ok lm)
           | None => (w, Raise AttributeError)
           end.

Definition attr_cells (nb : loc) : M loc :=
  fun w => match notebooks (store w) !! nb with
           | Some (_, lc) => (w, Ok lc)
           | None => (w, Raise AttributeError)
           end.

Definition load_dict (l : loc) : M Metadata :=
  fun w => match dicts (store w) !! l with
           | Some d => (w, Ok d)
           | None => (w, Raise AttributeError)
           end.

Definition load_list (l : loc) : M (list Cell) :=
  fun w => match lists (store w) !! l with
           | Some cs => (w, Ok cs)
           | None => (w, Raise AttributeError)
           end.

(** In-place update of the mapping at [l]. *)
Definition store_dict (l : loc) (d : Metadata) : M unit :=
  fun w =>
    let s := store w in
    (Build_World (Build_Store (notebooks s) (<[l := d]> (dicts s)) (lists s))
                 (files w) (log w), Ok tt).

(** In-place update of the list at [l]. *)
Definition store_list (l : loc) (cs : list Cell) : M unit :=
  fun w =>
    let s := store w in
    (Build_World (Build_Store (notebooks s) (dicts s) (<[l := cs]> (lists s)))
                 (files w) (log w), Ok tt).

(** The contents of the notebook object at [nb], when it is well formed. *)
Definition view (s : Store) (nb : loc) : option Notebook :=
  match notebooks s !! nb with
  | Some (lm, lc) =>
      match dicts s !! lm, lists s !! lc with
      | Some d, Some cs => Some (Build_Notebook cs d)
      | _, _ => None
      end
  | None => None
  end.

(** A new notebook object with these cells and this metadata, in
    objects of their own. *)
Definition build_notebook (cs : list Cell) (md : Metadata) : M loc :=
  let* lm := alloc_dict md in
  let* lc := alloc_list cs in
  alloc_notebook lm lc.

(** [deepcopy(nb)]: a new notebook object whose metadata mapping and
    cell list are new objects too, with the same contents. *)
Definition deepcopy (nb : loc) : M loc :=
  let* lm := attr_metadata nb in
  let* lc := attr_cells nb in
  let* d := load_dict lm in
  let* cs := load_list lc in
  build_notebook cs d.


(** ** Collaborators

    The modules [.header], [.languages], [.cells] and [.cell_to_text],
    the package nbformat and the Python library functions the code calls
    are taken as given: everything below holds whatever they compute.
    Functions that are bound as methods ([self.text_to_cell], ...) see
    the profile through [self], here through the extension.  A
    collaborator that is handed the writer's notebook may change that
    notebook, and returns it. *)
Class Collaborators : Type := {
  (** [str.splitlines] *)
  splitlines : string -> list string;
  (** [os.path.splitext] *)
  splitext : string -> string * string;
  (** [.header]: metadata, header cell (or [None]) and position *)
  header_to_metadata_and_cell :
    string -> list string -> result (Metadata * option Cell * Z);
  (** [.cells]: one cell and the number of lines it took *)
  text_to_cell : string -> list string -> result (Cell * Z);
  (** [.languages]: updates the metadata and the cells in place *)
  find_main_language : Metadata -> list Cell -> result (Metadata * list Cell);
  get_default_language : Notebook -> Notebook * result value;
  encoding_and_executable : string -> Notebook -> Notebook * result (list string);
  metadata_and_cell_to_header : string -> Notebook -> Notebook * result (list string);
  (** [.cell_to_text]: the exporter of one cell *)
  Exporter : Type;
  CellExporter : Cell -> value -> string -> result Exporter;
  cell_to_text : Exporter -> result (list string);
  is_code : Exporter -> bool;
  skiplines : Exporter -> Z;
  (** nbformat's validation of a notebook against the schema of the
      format, which raises on a notebook that is not valid *)
  validate : Notebook -> result unit;
  (** [nbformat.reads], [nbformat.read], [nbformat.writes] and
      [nbformat.write], for the .ipynb format *)
  nbformat_reads : string -> Z -> M loc;
  nbformat_read : string -> Z -> M loc;
  nbformat_writes : loc -> option Z -> M string;
  nbformat_write : loc -> string -> option Z -> M unit
}.

(** [new_notebook(cells=cells, metadata=metadata)] of nbformat: a new
    notebook object with these cells and this metadata, returned when
    the notebook is valid; the validation raises otherwise, and the
    object is lost. *)
Definition new_notebook `{Collaborators} (cs : list Cell) (md : Metadata) : M loc :=
  lift (validate (Build_Notebook cs md));;
  build_notebook cs md.

(** Runs a collaborator on the notebook object at [nb], which it may
    update in place. *)
Definition on_notebook {A} (nb : loc) (f : Notebook -> Notebook * result A) : M A :=
  let* lm := attr_metadata nb in
  let* lc := attr_cells nb in
  let* d := load_dict lm in
  let* cs := load_list lc in
  let (nb', r) := f (Build_Notebook cs d) in
  store_dict lm (metadata nb');;
  store_list lc (cells nb');;
  lift r.

(** ** Streams and files *)

(** [io.open(name, mode, encoding='utf-8')]: the stream is known by the
    name of its file.  Opening for writing creates or empties the file;
    opening a missing file for reading fails. *)
Definition io_open (name mode : string) : M string :=
  emit (IoOpen name mode);;
  fun w =>
    if PyStr.eqb mode "w" then
      (Build_World (store w) (<[name := ""]> (files w)) (log w), Ok name)
    else
      match files w !! name with
      | Some _ => (w, Ok name)
      | None => (w, Raise (OSError name))
      end.

(** [fp.read()] *)
Definition fp_read (fp : string) : M string :=
  emit (IoRead fp);;
  fun w => (w, Ok (default "" (files w !! fp))).

(** [fp.write(data)] *)
Definition fp_write (fp data : string) : M unit :=
  emit (IoWrite fp data);;
  fun w =>
    (Build_World (store w)
                 (<[fp := default "" (files w !! fp) +:+ data]> (files w))
                 (log w), Ok tt).

(** [with io.open(name, mode, encoding='utf-8') as stream: body]: the
    stream is closed on every way out of [body]. *)
Definition with_open {A} (name mode : string) (body : string -> M A) : M A :=
  let* stream := io_open name mode in
  fun w =>
    let (w', r) := body stream w in
    (Build_World (store w') (files w') (log w' ++ [IoClose stream]), r).

(** ** TextNotebookReader *)

Module TextNotebookReader.

(** The attributes [__init__] sets.  ([self.start_code] and
    [self.markdown_to_cell] are read by the collaborators only, which
    get [ext].) *)
Record t : Type := Build { ext : string; prefix : string }.

Definition __init__ (ext : string) : t :=
  Build ext (markdown_comment ext).

(** [markdown_unescape(self, line)] *)
Definition markdown_unescape (self : t) (line : string) : string :=
  if PyStr.eqb (prefix self) "" then line
  else
    let line := PyStr.skip (PyStr.len (prefix self)) line in
    if PyStr.startswith line " " then PyStr.skip 1 line else line.

(** The diagnostic of a blocked reader:
    ['Blocked at lines ' + '\n'.join(lines[:6])]. *)
Definition blocked (lines : list string) : exn :=
  Exception ("Blocked at lines " +:+ PyStr.join PyStr.LF (take 6 lines)).

(** The world after the call [e] was logged. *)
Definition called (e : event) (w : World) : World :=
  Build_World (store w) (files w) (log w ++ [e]).

Section Reader.
Context `{Collaborators}.

(** The loop [while lines: ...] of [to_notebook]; [cs] is the list
    [cells] built so far.  Every call of [text_to_cell] is logged. *)
Equations? parse_cells (ext : string) (lines : list string) (cs : list Cell)
    (w : World) : World * result (list Cell) by wf (length lines) lt :=
  parse_cells ext [] cs w := (w, Ok cs);
  parse_cells ext (l :: ls) cs w with text_to_cell ext (l :: ls) := {
    | Raise e := (called (CallTextToCell (l :: ls)) w, Raise e);
    | Ok cell_pos with Logic.inspect (snd cell_pos <=? 0) := {
      | exist _ true Hblocked :=
          (called (CallTextToCell (l :: ls)) w, Raise (blocked (l :: ls)));
      | exist _ false Hpos :=
          parse_cells ext (drop (Z.to_nat (snd cell_pos)) (l :: ls))
                      (cs ++ [fst cell_pos])
                      (called (CallTextToCell (l :: ls)) w) } }.
Proof.
  apply Z.leb_gt in Hpos.
  destruct (Z.to_nat z) as [|n] eqn:Hn; [lia|].
  simpl. rewrite length_drop. lia.
Qed.

(** [to_notebook(self, text)] *)
Definition to_notebook (self : t) (text : string) : M loc :=
  let lines := splitlines text in
  emit (CallHeaderToMetadataAndCell lines);;
  let* (metadata, header_cell, pos) :=
    lift (header_to_metadata_and_cell (ext self) lines) in
  let cs := match header_cell with Some c => [c] | None => [] end in
  let lines := if 0 <? pos then drop (Z.to_nat pos) lines else lines in
  let* cs := parse_cells (ext self) lines cs in
  let* (metadata, cs) :=
    if PyStr.eqb (ext self) ".Rmd" then lift (find_main_language metadata cs)
    else if PyStr.eqb (ext self) ".R" then
      if negb (truthy (py_or (get metadata "main_language")
                             (get_default metadata "language_info" (VDict ∅))))
      then ret (<["main_language" := VStr "R"]> metadata, cs)
      else ret (metadata, cs)
    else ret (metadata, cs) in
  new_notebook cs metadata.

(** [reads(self, s)] *)
Definition reads (self : t) (s : string) : M loc := to_notebook self s.

(** [read(self, fp)], inherited from nbformat's [NotebookReader]:
    [self.reads(fp.read())]. *)
Definition read (self : t) (fp : string) : M loc :=
  let* nbs := fp_read fp in
  reads self nbs.

End Reader.
End TextNotebookReader.

(** ** TextNotebookWriter *)

Module TextNotebookWriter.

Record t : Type := Build { ext : string; prefix : string }.

Definition __init__ (ext : string) : t :=
  Build ext (markdown_comment ext).

(** [markdown_escape(self, lines)] *)
Definition markdown_escape (self : t) (lines : list string) : list string :=
  if PyStr.eqb (prefix self) "" then lines
  else
    map (fun line =>
           if PyStr.eqb line "" then prefix self
           else prefix self +:+ " " +:+ line)
        lines.

(** [nb.metadata.get('language_info', {}).get('name', fallback)] *)
Definition language_info_name (md : Metadata) (fallback : string) : result value :=
  match get_default md "language_info" (VDict ∅) with
  | VDict d => Ok (get_default d "name" (VStr fallback))
  | _ => Raise AttributeError
  end.

(** [nb.metadata.get('main_language') or
     nb.metadata.get('language_info', {}).get('name', fallback)]:
    the right operand is evaluated only when the left one is false. *)
Definition script_default_language (md : Metadata) (fallback : string) : result value :=
  let main_language := get md "main_language" in
  if truthy main_language then Ok main_language
  else language_info_name md fallback.

Section Writer.
Context `{Collaborators}.

(** The block [if self.ext == '.py': ... elif self.ext == '.R': ...
    else: ...] of [writes], on the copy [nb]: the default language and,
    for .R, the removal of a redundant main language. *)
Definition resolve_default_language (self : t) (nb : loc) : M value :=
  if PyStr.eqb (ext self) ".py" then
    let* lm := attr_metadata nb in
    let* md := load_dict lm in
    lift (script_default_language md "python")
  else if PyStr.eqb (ext self) ".R" then
    let* lm := attr_metadata nb in
    let* md := load_dict lm in
    let* default_language := lift (script_default_language md "R") in
    (if eq_str (get md "main_language") "R"
     then store_dict lm (delete "main_language" md)
     else ret tt);;
    ret default_language
  else on_notebook nb get_default_language.

(** The first part of [writes]: the private copy and the default
    language. *)
Definition writes_prepare (self : t) (nb : loc) : M (loc * value) :=
  let* nb := deepcopy nb in
  let* default_language := resolve_default_language self nb in
  ret (nb, default_language).

(** The test on the end of cell marker in the loop of [writes]: [text]
    is [texts[i]] and [next] is [texts[i + 1]], or [None] when
    [i + 1 >= len(texts)].  [text[-1]] and [texts[i + 1][0]] raise on
    an empty list. *)
Definition strip_end_marker (self : t) (cell : Exporter)
    (text : list string) (next : option (list string)) : result (list string) :=
  if PyStr.eqb (ext self) ".py" && is_code cell then
    match last text with
    | None => Raise IndexError
    | Some marker =>
        if PyStr.eqb marker "# -" then
          match next with
          | None => Ok (removelast text)
          | Some next_text =>
              match head next_text with
              | None => Raise IndexError
              | Some first =>
                  if PyStr.startswith first "# + {"
                  then Ok (removelast text) else Ok text
              end
          end
        else Ok text
    end
  else Ok text.

(** The lines that iteration [i] of the loop of [writes] appends to
    [lines]. *)
Definition cell_lines (self : t) (cs : list Exporter)
    (texts : list (list string)) (i : nat) : result (list string) :=
  match cs !! i, texts !! i with
  | Some cell, Some text =>
      match strip_end_marker self cell text (texts !! (i + 1)%nat) with
      | Raise e => Raise e
      | Ok text =>
          let blank :=
            if PyStr.eqb (ext self) ".Rmd" && negb (is_code cell) then
              match cs !! (i + 1)%nat with
              | Some next_cell => if negb (is_code next_cell) then [""] else []
              | None => []
              end
            else [] in
          Ok (text ++ replicate (Z.to_nat (skiplines cell)) "" ++ blank)
      end
  | _, _ => Raise IndexError
  end.

(** The second part of [writes]: header, cells and the final join, on
    the private copy [nb]. *)
Definition writes_render (self : t) (nb : loc) (default_language : value) : M string :=
  let* lines := on_notebook nb (encoding_and_executable (ext self)) in
  let* header := on_notebook nb (metadata_and_cell_to_header (ext self)) in
  let lines := lines ++ header in
  let* lc := attr_cells nb in
  let* nb_cells := load_list lc in
  let* cs := mapM (fun cell => lift (CellExporter cell default_language (ext self)))
                  nb_cells in
  let* texts := mapM (fun cell => lift (cell_to_text cell)) cs in
  let* body := mapM (fun i => lift (cell_lines self cs texts i))
                    (seq 0 (length cs)) in
  ret (PyStr.join PyStr.LF (lines ++ concat body)).

(** [writes(self, nb)] *)
Definition writes (self : t) (nb : loc) : M string :=
  let* (nb, default_language) := writes_prepare self nb in
  writes_render self nb default_language.

(** [write(self, nb, fp)], inherited from nbformat's [NotebookWriter]:
    [fp.write(self.writes(nb))]. *)
Definition write (self : t) (nb : loc) (fp : string) : M unit :=
  let* nbs := writes self nb in
  fp_write fp nbs.

End Writer.
End TextNotebookWriter.

(** ** Module level: the tables of readers and writers, and the entry points *)

Definition text_extensions : list string :=
  filter (fun ext => ext ≠ ".ipynb") NOTEBOOK_EXTENSIONS.

Definition _NOTEBOOK_READERS : gmap string TextNotebookReader.t :=
  list_to_map (map (fun ext => (ext, TextNotebookReader.__init__ ext)) text_extensions).

Definition _NOTEBOOK_WRITERS : gmap string TextNotebookWriter.t :=
  list_to_map (map (fun ext => (ext, TextNotebookWriter.__init__ ext)) text_extensions).

(** [table[key]] *)
Definition getitem {A} (table : gmap string A) (key : string) : M A :=
  match table !! key with
  | Some a => ret a
  | None => raise (KeyError key)
  end.

(** ['File {} is not a notebook. Expected extensions are {}'
      .format(nb_file, NOTEBOOK_EXTENSIONS)] *)
Definition not_a_notebook (nb_file : string) : string :=
  "File " +:+ nb_file +:+ " is not a notebook. Expected extensions are " +:+
  "[" +:+ PyStr.join ", " (map (fun e => "'" +:+ e +:+ "'") NOTEBOOK_EXTENSIONS) +:+ "]".

Section EntryPoints.
Context `{Collaborators}.

(** An argument with a default value is [None] when the caller leaves
    it out; [version = None] stands for [nbformat.NO_CONVERT]. *)

(** [reads(text, as_version=4, ext='.Rmd')] *)
Definition reads (text : string) (as_version : option Z) (ext : option string) : M loc :=
  let as_version := default 4 as_version in
  let ext := default ".Rmd" ext in
  if PyStr.eqb ext ".ipynb" then nbformat_reads text as_version
  else
    let* reader := getitem _NOTEBOOK_READERS ext in
    TextNotebookReader.reads reader text.

(** [read(file_or_stream, as_version=4, ext='.Rmd')] *)
Definition read (file_or_stream : string) (as_version : option Z) (ext : option string) : M loc :=
  let as_version := default 4 as_version in
  let ext := default ".Rmd" ext in
  if PyStr.eqb ext ".ipynb" then nbformat_read file_or_stream as_version
  else
    let* reader := getitem _NOTEBOOK_READERS ext in
    TextNotebookReader.read reader file_or_stream.

(** [writes(notebook, version=nbformat.NO_CONVERT, ext='.Rmd')] *)
Definition writes (notebook : loc) (version : option Z) (ext : option string) : M string :=
  let ext := default ".Rmd" ext in
  if PyStr.eqb ext ".ipynb" then nbformat_writes notebook version
  else
    let* writer := getitem _NOTEBOOK_WRITERS ext in
    TextNotebookWriter.writes writer notebook.

(** [write(notebook, file_or_stream, version=nbformat.NO_CONVERT, ext='.Rmd')] *)
Definition write (notebook : loc) (file_or_stream : string) (version : option Z)
    (ext : option string) : M unit :=
  let ext := default ".Rmd" ext in
  if PyStr.eqb ext ".ipynb" then nbformat_write notebook file_or_stream version
  else
    let* writer := getitem _NOTEBOOK_WRITERS ext in
    TextNotebookWriter.write writer notebook file_or_stream.

(** [readf(nb_file)] *)
Definition readf (nb_file : string) : M loc :=
  let ext := snd (splitext nb_file) in
  if negb (bool_decide (ext ∈ NOTEBOOK_EXTENSIONS)) then
    raise (TypeError (not_a_notebook nb_file))
  else
    with_open nb_file "r" (fun stream => read stream (Some 4) (Some ext)).

(** [writef(notebook, nb_file)] *)
Definition writef (notebook : loc) (nb_file : string) : M unit :=
  let ext := snd (splitext nb_file) in
  if negb (bool_decide (ext ∈ NOTEBOOK_EXTENSIONS)) then
    raise (TypeError (not_a_notebook nb_file))
  else
    with_open nb_file "w" (fun stream => write notebook stream None (Some ext)).

End EntryPoints.

(** ** Vocabulary of the properties *)

(** Two consecutive calls of [text_to_cell] by the loop of
    [to_notebook]: the call on [l1] took [pos > 0] lines, and [l2] is
    what remained. *)
Definition advances `{Collaborators} (ext : string) (l1 l2 : list string) : Prop :=
  exists cell pos,
    text_to_cell ext l1 = Ok (cell, pos)
    /\ 0 < pos
    /\ l2 = drop (Z.to_nat pos) l1
    /\ (length l2 < length l1)%nat.

(** The store [s] has every object of [s0], unchanged. *)
Definition extends (s0 s : Store) : Prop :=
  notebooks s0 ⊆ notebooks s /\ dicts s0 ⊆ dicts s /\ lists s0 ⊆ lists s.

(** In the world [w], the notebook object at [copy] is private with
    respect to the store [s0]: its metadata mapping, at [lm], and its
    cell list, at [lc], are not objects of [s0]; and [w] has the objects
    of [s0] unchanged. *)
Definition private_copy (s0 : Store) (copy lm lc : loc) (w : World) : Prop :=
  extends s0 (store w)
  /\ notebooks (store w) !! copy = Some (lm, lc)
  /\ dicts s0 !! lm = None
  /\ lists s0 !! lc = None.

(** The computation [c] keeps the copy private. *)
Definition keeps_private (s0 : Store) (copy lm lc : loc) {A} (c : M A) : Prop :=
  forall w, private_copy s0 copy lm lc w -> private_copy s0 copy lm lc (c w).1.

(** ** A small instance of the collaborators

    A line-per-cell dialect on which the definitions above run: every
    non empty line is a markdown cell, the parser makes no progress on
    an empty line, a code cell is rendered as its source followed by the
    end of cell marker, and there is no header. *)

Module Sample.

(** Splits at line feeds, like [str.splitlines] on text without other
    line boundaries; [cur] is the line read so far. *)
Fixpoint split_lf (cur : string) (s : string) : list string :=
  match s with
  | EmptyString => if PyStr.eqb cur "" then [] else [cur]
  | String c s' =>
      if Ascii.eqb c (ascii_of_nat 10) then cur :: split_lf "" s'
      else split_lf (cur +:+ String c EmptyString) s'
  end.

Fixpoint only_dots (s : string) : bool :=
  match s with
  | EmptyString => true
  | String c s' => Ascii.eqb c "."%char && only_dots s'
  end.

(** The extension of a file name without directories, like
    [os.path.splitext]: from its last dot, unless only dots come before
    it; [root] is the part read so far. *)
Fixpoint last_dot (root : string) (s : string) : string * string :=
  match s with
  | EmptyString => (root, "")
  | String c s' =>
      let (r, e) := last_dot (root +:+ String c EmptyString) s' in
      if PyStr.eqb e "" then
        if Ascii.eqb c "."%char && negb (only_dots root)
        then (root, String c s') else (r, e)
      else (r, e)
  end.

Definition line_cell (line : string) : Cell := new_cell "markdown" line ∅.

Definition code_cell (src : string) : Cell := new_cell "code" src ∅.

Definition parse_line (ext : string) (lines : list string) : result (Cell * Z) :=
  match lines with
  | [] => Raise (Failure "no line")
  | line :: _ =>
      Ok (line_cell (TextNotebookReader.markdown_unescape
                       (TextNotebookReader.__init__ ext) line),
          if PyStr.eqb line "" then 0 else 1)
  end.

(** A part of the schema of the format: language_info, when present,
    is a mapping with a name that is a string, and kernelspec, when
    present, is a mapping with a name and a display_name that are
    strings. *)
Definition is_string (v : option value) : bool :=
  match v with Some (VStr _) => true | _ => false end.

Definition valid_metadata (md : Metadata) : bool :=
  match md !! "language_info" with
  | None => true
  | Some (VDict d) => is_string (d !! "name")
  | Some _ => false
  end
  && match md !! "kernelspec" with
     | None => true
     | Some (VDict d) => is_string (d !! "name") && is_string (d !! "display_name")
     | Some _ => false
     end.

Definition check (nb : Notebook) : result unit :=
  if valid_metadata (metadata nb) then Ok tt
  else Raise (Failure "NotebookValidationError").

Definition export_lines (c : Cell) : result (list string) :=
  if PyStr.eqb (cell_type c) "code" then Ok [source c; "# -"]
  else Ok [source c].

#[local] Instance collaborators : Collaborators := {|
  splitlines := split_lf "";
  splitext := last_dot "";
  header_to_metadata_and_cell := fun _ _ => Ok (∅, None, 0);
  text_to_cell := parse_line;
  find_main_language := fun md cs => Ok (md, cs);
  get_default_language := fun nb => (nb, Ok (VStr "python"));
  encoding_and_executable := fun _ nb => (nb, Ok []);
  metadata_and_cell_to_header := fun _ nb => (nb, Ok []);
  Exporter := Cell;
  CellExporter := fun c _ _ => Ok c;
  cell_to_text := export_lines;
  is_code := fun c => PyStr.eqb (cell_type c) "code";
  skiplines := fun _ => 1;
  validate := Sample.check;
  nbformat_reads := fun _ _ => raise (Failure "ipynb");
  nbformat_read := fun _ _ => raise (Failure "ipynb");
  nbformat_writes := fun _ _ => raise (Failure "ipynb");
  nbformat_write := fun _ _ _ => raise (Failure "ipynb")
|}.

(** A world with one notebook, at address 1: metadata at 2, cells at 3. *)
Definition world_with (nb : Notebook) : World :=
  Build_World (Build_Store {[ 1%positive := (2%positive, 3%positive) ]}
                           {[ 2%positive := metadata nb ]}
                           {[ 3%positive := cells nb ]})
              ∅ [].

End Sample.

(** ** Further vocabulary *)

(** The cells the loop of [to_notebook] cuts [lines] into: each cell is
    what [text_to_cell] gives on the lines that remain, and it takes
    [pos > 0] of them. *)
Inductive segments `{Collaborators} (ext : string) :
    list string -> list Cell -> Prop :=
  | segments_done : segments ext [] []
  | segments_cell (lines : list string) (cell : Cell) (pos : Z) (cs : list Cell) :
      lines <> [] ->
      text_to_cell ext lines = Ok (cell, pos) ->
      0 < pos ->
      segments ext (drop (Z.to_nat pos) lines) cs ->
      segments ext lines (cell :: cs).

(** The computation [c] touches neither the files nor the log. *)
Definition quiet {A} (c : M A) : Prop :=
  forall w, files (c w).1 = files w /\ log (c w).1 = log w.

(** The sample dialect with a parser that is never stuck: every line,
    empty or not, is a cell of its own. *)
Module Steady.

Definition take_line (ext : string) (lines : list string) : result (Cell * Z) :=
  match lines with
  | [] => Raise (Failure "no line")
  | line :: _ =>
      Ok (Sample.line_cell (TextNotebookReader.markdown_unescape
                              (TextNotebookReader.__init__ ext) line), 1)
  end.

#[local] Instance collaborators : Collaborators := {|
  splitlines := Sample.split_lf "";
  splitext := Sample.last_dot "";
  header_to_metadata_and_cell := fun _ _ => Ok (∅, None, 0);
  text_to_cell := take_line;
  find_main_language := fun md cs => Ok (md, cs);
  get_default_language := fun nb => (nb, Ok (VStr "python"));
  encoding_and_executable := fun _ nb => (nb, Ok []);
  metadata_and_cell_to_header := fun _ nb => (nb, Ok []);
  Exporter := Cell;
  CellExporter := fun c _ _ => Ok c;
  cell_to_text := Sample.export_lines;
  is_code := fun c => PyStr.eqb (cell_type c) "code";
  skiplines := fun _ => 1;
  validate := Sample.check;
  nbformat_reads := fun _ _ => raise (Failure "ipynb");
  nbformat_read := fun _ _ => raise (Failure "ipynb");
  nbformat_writes := fun _ _ => raise (Failure "ipynb");
  nbformat_write := fun _ _ _ => raise (Failure "ipynb")
|}.

End Steady.

(** The sample dialect with an exporter that renders a cell as the
    lines of its source and nothing else: a cell with an empty source
    has no line. *)
Module Bare.

Definition source_lines (c : Cell) : result (list string) :=
  Ok (Sample.split_lf "" (source c)).

#[local] Instance collaborators : Collaborators := {|
  splitlines := Sample.split_lf "";
  splitext := Sample.last_dot "";
  header_to_metadata_and_cell := fun _ _ => Ok (∅, None, 0);
  text_to_cell := Sample.parse_line;
  find_main_language := fun md cs => Ok (md, cs);
  get_default_language := fun nb => (nb, Ok (VStr "python"));
  encoding_and_executable := fun _ nb => (nb, Ok []);
  metadata_and_cell_to_header := fun _ nb => (nb, Ok []);
  Exporter := Cell;
  CellExporter := fun c _ _ => Ok c;
  cell_to_text := source_lines;
  is_code := fun c => PyStr.eqb (cell_type c) "code";
  skiplines := fun _ => 1;
  validate := Sample.check;
  nbformat_reads := fun _ _ => raise (Failure "ipynb");
  nbformat_read := fun _ _ => raise (Failure "ipynb");
  nbformat_writes := fun _ _ => raise (Failure "ipynb");
  nbformat_write := fun _ _ _ => raise (Failure "ipynb")
|}.

End Bare.

(** The bytes of [s] are all continuation bytes. *)
Fixpoint continuation_bytes (s : string) : bool :=
  match s with
  | EmptyString => true
  | String c s' => PyStr.continuation c && continuation_bytes s'
  end.

(** [s] is made of whole code points: each starts with a byte that is
    not a continuation byte, and goes on with as many continuation bytes
    as that byte announces. *)
Inductive code_points : string -> Prop :=
  | code_points_nil : code_points ""
  | code_points_cons (c : ascii) (bs rest : string) :
      PyStr.continuation c = false ->
      String.length bs = PyStr.trail c ->
      continuation_bytes bs = true ->
      code_points rest ->
      code_points (String c (bs +:+ rest)).

(** The code point U+65E5, three bytes long. *)
Definition U65E5 : string :=
  String (ascii_of_nat 230) (String (ascii_of_nat 151)
    (String (ascii_of_nat 165) EmptyString)).

(** The sample dialect with a header that carries the languages of the
    metadata: a line ["#' main_language: x"] for a main_language [x]
    that is a string, then a line ["#' language_info: x"] for a
    language_info with the name [x]; every other line is a cell of its
    own. *)
Module Carry.

(** [Some rest] when [s] is [p] followed by [rest]. *)
Fixpoint strip_prefix (p s : string) : option string :=
  match p, s with
  | EmptyString, _ => Some s
  | String a p', String b s' =>
      if Ascii.eqb a b then strip_prefix p' s' else None
  | String _ _, EmptyString => None
  end.

Definition header_lines (md : Metadata) : list string :=
  match md !! "main_language" with
  | Some (VStr x) => ["#' main_language: " +:+ x]
  | _ => []
  end
  ++ match md !! "language_info" with
     | Some (VDict d) =>
         match d !! "name" with
         | Some (VStr x) => ["#' language_info: " +:+ x]
         | _ => []
         end
     | _ => []
     end.

Fixpoint read_header (lines : list string) : Metadata * Z :=
  match lines with
  | [] => (∅, 0)
  | line :: rest =>
      match strip_prefix "#' main_language: " line with
      | Some x =>
          let (md, n) := read_header rest in
          (<["main_language" := VStr x]> md, n + 1)
      | None =>
          match strip_prefix "#' language_info: " line with
          | Some x =>
              let (md, n) := read_header rest in
              (<["language_info" := VDict {[ "name" := VStr x ]}]> md, n + 1)
          | None => (∅, 0)
          end
      end
  end.

#[local] Instance collaborators : Collaborators := {|
  splitlines := Sample.split_lf "";
  splitext := Sample.last_dot "";
  header_to_metadata_and_cell :=
    fun _ lines => let (md, n) := read_header lines in Ok (md, None, n);
  text_to_cell := Steady.take_line;
  find_main_language := fun md cs => Ok (md, cs);
  get_default_language := fun nb => (nb, Ok (VStr "python"));
  encoding_and_executable := fun _ nb => (nb, Ok []);
  metadata_and_cell_to_header :=
    fun _ nb => (nb, Ok (header_lines (metadata nb)));
  Exporter := Cell;
  CellExporter := fun c _ _ => Ok c;
  cell_to_text := Sample.export_lines;
  is_code := fun c => PyStr.eqb (cell_type c) "code";
  skiplines := fun _ => 1;
  validate := Sample.check;
  nbformat_reads := fun _ _ => raise (Failure "ipynb");
  nbformat_read := fun _ _ => raise (Failure "ipynb");
  nbformat_writes := fun _ _ => raise (Failure "ipynb");
  nbformat_write := fun _ _ _ => raise (Failure "ipynb")
|}.

End Carry.

(** * Properties *)

(** ** Markdown escaping *)

(** The comment prefixes. *)
Lemma markdown_comment_cases (ext : string) :
  markdown_comment ext = "" \/ markdown_comment ext = "#'"
  \/ markdown_comment ext = "#".
Proof.
  unfold markdown_comment.
  destruct (PyStr.eqb ext ".Rmd"); [left; reflexivity|].
  destruct (PyStr.eqb ext ".R"); [right; left | right; right]; reflexivity.
Qed.

(** A comment prefix is dropped whole from the front of a line. *)
Lemma skip_app (ext s : string) :
  PyStr.skip (PyStr.len (markdown_comment ext)) (markdown_comment ext +:+ s) = s.
Proof.
  destruct (markdown_comment_cases ext) as [-> | [-> | ->]]; reflexivity.
Qed.

Lemma skip_length (ext : string) :
  PyStr.skip (PyStr.len (markdown_comment ext)) (markdown_comment ext) = "".
Proof.
  destruct (markdown_comment_cases ext) as [-> | [-> | ->]]; reflexivity.
Qed.

Lemma eqb_true (s t : string) : PyStr.eqb s t = true <-> s = t.
Proof. unfold PyStr.eqb. apply bool_decide_eq_true. Qed.

Lemma eqb_false (s t : string) : PyStr.eqb s t = false <-> s <> t.
Proof. unfold PyStr.eqb. apply bool_decide_eq_false. Qed.

Lemma eqb_refl (s : string) : PyStr.eqb s s = true.
Proof. apply eqb_true. reflexivity. Qed.

(** Escaping one line and unescaping it gives the line back, for every
    line and every comment prefix. *)
Lemma unescape_escape_line (ext line : string) :
  map (TextNotebookReader.markdown_unescape (TextNotebookReader.__init__ ext))
      (TextNotebookWriter.markdown_escape (TextNotebookWriter.__init__ ext) [line])
  = [line].
Proof.
  unfold TextNotebookWriter.markdown_escape, TextNotebookReader.markdown_unescape.
  simpl.
  destruct (PyStr.eqb (markdown_comment ext) "") eqn:Hp; simpl; [reflexivity|].
  f_equal.
  destruct (PyStr.eqb line "") eqn:Hl.
  - apply eqb_true in Hl. subst line. rewrite skip_length. reflexivity.
  - rewrite skip_app. change (" " +:+ line) with (String " "%char line).
    unfold PyStr.startswith. simpl. destruct line; reflexivity.
Qed.

(** C8 (as amended): [markdown_escape] leaves every line unchanged when
    the comment prefix is empty (.Rmd); otherwise (prefix ['#'] for .py,
    ["#'"] for .R) it renders an empty line as the prefix alone and every
    other line as the prefix, one space and the line. *)
Theorem markdown_escape_rule (ext : string) (lines : list string) :
  let self := TextNotebookWriter.__init__ ext in
  TextNotebookWriter.prefix self
    = (if bool_decide (ext = ".Rmd") then ""
       else if bool_decide (ext = ".R") then "#'" else "#")
  /\ TextNotebookWriter.markdown_escape self lines
    = map (fun line =>
             if bool_decide (TextNotebookWriter.prefix self = "") then line
             else if bool_decide (line = "") then TextNotebookWriter.prefix self
             else TextNotebookWriter.prefix self +:+ " " +:+ line)
          lines.
Proof.
  simpl. split; [reflexivity|].
  unfold TextNotebookWriter.markdown_escape, PyStr.eqb. simpl.
  destruct (bool_decide (markdown_comment ext = "")).
  - symmetry. apply map_id.
  - reflexivity.
Qed.

(** C8, as stated, fails on an empty line: with the prefix ['#'] of .py
    the empty line is rendered as ['#'], without the separating space. *)
Lemma markdown_escape_empty_line_counterexample :
  let self := TextNotebookWriter.__init__ ".py" in
  TextNotebookWriter.prefix self = "#"
  /\ TextNotebookWriter.markdown_escape self [""] = ["#"]
  /\ TextNotebookWriter.markdown_escape self [""]
     <> map (fun line => TextNotebookWriter.prefix self +:+ " " +:+ line) [""].
Proof. repeat split. discriminate. Qed.

(** C9: for .py and .R, a line that does not start with the comment
    prefix is given back by [markdown_unescape] after [markdown_escape];
    for .py, "Hello" is escaped to "# Hello", which is unescaped to
    "Hello". *)
Theorem escape_unescape_inverse (ext line : string) :
  ext = ".py" \/ ext = ".R" ->
  PyStr.startswith line (markdown_comment ext) = false ->
  map (TextNotebookReader.markdown_unescape (TextNotebookReader.__init__ ext))
      (TextNotebookWriter.markdown_escape (TextNotebookWriter.__init__ ext) [line])
  = [line]
  /\ TextNotebookWriter.markdown_escape (TextNotebookWriter.__init__ ".py") ["Hello"]
     = ["# Hello"]
  /\ TextNotebookReader.markdown_unescape (TextNotebookReader.__init__ ".py") "# Hello"
     = "Hello".
Proof.
  intros _ _. split; [apply unescape_escape_line|]. split; reflexivity.
Qed.

(** C9 at the line "# a title" of an .R script, which starts with ['#']
    but not with the prefix ["#'"]. *)
Lemma escape_unescape_inverse_witness :
  map (TextNotebookReader.markdown_unescape (TextNotebookReader.__init__ ".R"))
      (TextNotebookWriter.markdown_escape (TextNotebookWriter.__init__ ".R")
                                          ["# a title"])
  = ["# a title"].
Proof.
  apply (escape_unescape_inverse ".R" "# a title"); [right; reflexivity | reflexivity].
Defined.

(** ** The object store *)

Lemma fresh_loc_spec (s : Store) :
  notebooks s !! fresh_loc s = None
  /\ dicts s !! fresh_loc s = None
  /\ lists s !! fresh_loc s = None.
Proof.
  unfold fresh_loc.
  pose proof (is_fresh (dom (notebooks s) ∪ dom (dicts s) ∪ dom (lists s))) as Hf.
  repeat split; apply not_elem_of_dom; set_solver.
Qed.

(** What [deepcopy] does on a well formed notebook: three new objects,
    at addresses that were free, and nothing else changes. *)
Lemma deepcopy_spec (w : World) (nb : loc) (n : Notebook) :
  view (store w) nb = Some n ->
  exists lm lc copy,
    deepcopy nb w
    = (Build_World
         (Build_Store (<[copy := (lm, lc)]> (notebooks (store w)))
                      (<[lm := metadata n]> (dicts (store w)))
                      (<[lc := cells n]> (lists (store w))))
         (files w) (log w), Ok copy)
    /\ notebooks (store w) !! copy = None
    /\ dicts (store w) !! lm = None
    /\ lists (store w) !! lc = None.
Proof.
  unfold view. intros Hv.
  destruct (notebooks (store w) !! nb) as [[lm0 lc0]|] eqn:Hnb; [|discriminate].
  destruct (dicts (store w) !! lm0) as [d|] eqn:Hd; [|discriminate].
  destruct (lists (store w) !! lc0) as [cs|] eqn:Hc; [|discriminate].
  injection Hv as <-.
  unfold deepcopy, new_notebook, bind, attr_metadata, attr_cells, load_dict,
    load_list, alloc_dict, alloc_list, alloc_notebook.
  repeat (rewrite ?Hnb, ?Hd, ?Hc; cbv beta iota).
  set (s1 := Build_Store (notebooks (store w))
                         (<[fresh_loc (store w) := d]> (dicts (store w)))
                         (lists (store w))).
  set (s2 := Build_Store (notebooks (store w))
                         (<[fresh_loc (store w) := d]> (dicts (store w)))
                         (<[fresh_loc s1 := cs]> (lists (store w)))).
  exists (fresh_loc (store w)), (fresh_loc s1), (fresh_loc s2).
  split; [reflexivity|].
  split; [apply (fresh_loc_spec s2)|].
  split; [apply (fresh_loc_spec (store w))|].
  apply (fresh_loc_spec s1).
Qed.

(** [deepcopy] of something that is not a well formed notebook raises
    and changes nothing. *)
Lemma deepcopy_none (w : World) (nb : loc) :
  view (store w) nb = None -> exists e, deepcopy nb w = (w, Raise e).
Proof.
  unfold view. intros Hv.
  destruct (notebooks (store w) !! nb) as [[lm0 lc0]|] eqn:Hnb.
  - destruct (dicts (store w) !! lm0) as [d|] eqn:Hd.
    + destruct (lists (store w) !! lc0) as [cs|] eqn:Hc; [discriminate|].
      unfold deepcopy, bind, attr_metadata, attr_cells, load_dict, load_list.
      repeat (rewrite ?Hnb, ?Hd, ?Hc; cbv beta iota).
      eexists; reflexivity.
    + unfold deepcopy, bind, attr_metadata, attr_cells, load_dict.
      repeat (rewrite ?Hnb, ?Hd; cbv beta iota).
      eexists; reflexivity.
  - unfold deepcopy, bind, attr_metadata.
    repeat (rewrite ?Hnb; cbv beta iota).
    eexists; reflexivity.
Qed.

(** ** The writer: default language and normalization *)

Section WriterPrepare.
Context `{Collaborators}.

(** The first part of [writes] for .py: the copy has the contents of
    the notebook, and the default language is computed from its
    metadata. *)
Lemma writes_prepare_py (self : TextNotebookWriter.t) (nb : loc) (w : World)
    (n : Notebook) :
  TextNotebookWriter.ext self = ".py" ->
  view (store w) nb = Some n ->
  exists w' copy,
    TextNotebookWriter.writes_prepare self nb w
    = (w', result_map (pair copy)
             (TextNotebookWriter.script_default_language (metadata n) "python"))
    /\ view (store w') copy = Some n.
Proof.
  intros Hext Hv.
  destruct (deepcopy_spec w nb n Hv) as (lm & lc & copy & Hcopy & _).
  unfold TextNotebookWriter.writes_prepare,
    TextNotebookWriter.resolve_default_language, bind at 1.
  rewrite Hcopy, Hext. cbv beta iota.
  change (PyStr.eqb ".py" ".py") with true. cbv beta iota.
  unfold bind, attr_metadata, load_dict, lift, ret. simpl.
  rewrite !lookup_insert_eq. simpl. rewrite !lookup_insert_eq.
  eexists _, copy. split.
  - destruct (TextNotebookWriter.script_default_language (metadata n) "python");
      reflexivity.
  - unfold view. simpl. rewrite !lookup_insert_eq. destruct n; reflexivity.
Qed.

(** The first part of [writes] for .R: when the default language is
    computed, the copy has the cells of the notebook and its metadata
    without a main language 'R'. *)
Lemma writes_prepare_R (self : TextNotebookWriter.t) (nb : loc) (w : World)
    (n : Notebook) :
  TextNotebookWriter.ext self = ".R" ->
  view (store w) nb = Some n ->
  exists w' copy,
    TextNotebookWriter.writes_prepare self nb w
    = (w', result_map (pair copy)
             (TextNotebookWriter.script_default_language (metadata n) "R"))
    /\ (forall v, TextNotebookWriter.script_default_language (metadata n) "R" = Ok v ->
        view (store w') copy
        = Some (Build_Notebook (cells n)
                  (if eq_str (get (metadata n) "main_language") "R"
                   then delete "main_language" (metadata n) else metadata n))).
Proof.
  intros Hext Hv.
  destruct (deepcopy_spec w nb n Hv) as (lm & lc & copy & Hcopy & _).
  unfold TextNotebookWriter.writes_prepare,
    TextNotebookWriter.resolve_default_language, bind at 1.
  rewrite Hcopy, Hext. cbv beta iota.
  change (PyStr.eqb ".R" ".py") with false.
  change (PyStr.eqb ".R" ".R") with true. cbv beta iota.
  unfold bind, attr_metadata, load_dict, lift, ret. simpl.
  rewrite !lookup_insert_eq. simpl. rewrite !lookup_insert_eq.
  destruct (TextNotebookWriter.script_default_language (metadata n) "R") as [v|e].
  - destruct (eq_str (get (metadata n) "main_language") "R"); simpl.
    + eexists _, copy. split; [reflexivity|]. intros _ _.
      unfold view. simpl. rewrite !lookup_insert_eq. reflexivity.
    + eexists _, copy. split; [reflexivity|]. intros _ _.
      unfold view. simpl. rewrite !lookup_insert_eq. destruct n; reflexivity.
  - eexists _, copy. split; [reflexivity|]. discriminate.
Qed.

(** The default language [writes] resolves for .py and .R is
    [script_default_language] of the notebook's metadata. *)
Lemma resolved_default_language (self : TextNotebookWriter.t) (nb : loc)
    (w : World) (n : Notebook) (fallback : string) :
  view (store w) nb = Some n ->
  (TextNotebookWriter.ext self = ".py" /\ fallback = "python")
  \/ (TextNotebookWriter.ext self = ".R" /\ fallback = "R") ->
  result_map snd (TextNotebookWriter.writes_prepare self nb w).2
  = TextNotebookWriter.script_default_language (metadata n) fallback.
Proof.
  intros Hv [[Hext ->]|[Hext ->]].
  - destruct (writes_prepare_py self nb w n Hext Hv) as (w' & copy & -> & _).
    simpl. destruct (TextNotebookWriter.script_default_language _ _); reflexivity.
  - destruct (writes_prepare_R self nb w n Hext Hv) as (w' & copy & -> & _).
    simpl. destruct (TextNotebookWriter.script_default_language _ _); reflexivity.
Qed.

(** C5 (as amended): for .py and .R the default language that [writes]
    resolves is the metadata's main_language when it is present and
    true as a Python value (not empty); otherwise the name of
    language_info when language_info is a mapping that has one;
    otherwise the fallback of the dialect, 'python' for .py and 'R' for
    .R.  In particular a main_language "R" wins over any language_info. *)
Theorem default_language_precedence (self : TextNotebookWriter.t) (nb : loc)
    (w : World) (n : Notebook) (fallback : string) :
  view (store w) nb = Some n ->
  (TextNotebookWriter.ext self = ".py" /\ fallback = "python")
  \/ (TextNotebookWriter.ext self = ".R" /\ fallback = "R") ->
  let md := metadata n in
  let resolved := result_map snd (TextNotebookWriter.writes_prepare self nb w).2 in
  (forall v, md !! "main_language" = Some v -> truthy v = true -> resolved = Ok v)
  /\ ((forall v, md !! "main_language" = Some v -> truthy v = false) ->
      (forall d v, md !! "language_info" = Some (VDict d) -> d !! "name" = Some v ->
                   resolved = Ok v)
      /\ (forall d, md !! "language_info" = Some (VDict d) -> d !! "name" = None ->
                    resolved = Ok (VStr fallback))
      /\ (md !! "language_info" = None -> resolved = Ok (VStr fallback)))
  /\ (md !! "main_language" = Some (VStr "R") -> resolved = Ok (VStr "R")).
Proof.
  intros Hv Hext md resolved.
  assert (Hr : resolved = TextNotebookWriter.script_default_language md fallback)
    by (apply resolved_default_language; assumption).
  rewrite Hr. clear Hr resolved.
  unfold TextNotebookWriter.script_default_language,
    TextNotebookWriter.language_info_name, get, get_default.
  split; [|split].
  - intros v Hm Ht. rewrite Hm. simpl. rewrite Ht. reflexivity.
  - intros Hfalse.
    assert (Hmain : truthy (default VNone (md !! "main_language")) = false).
    { destruct (md !! "main_language") as [v|] eqn:Hm; simpl; [|reflexivity].
      apply Hfalse. reflexivity. }
    rewrite Hmain.
    split; [|split].
    + intros d v Hli Hname. rewrite Hli. simpl. rewrite Hname. reflexivity.
    + intros d Hli Hname. rewrite Hli. simpl. rewrite Hname. reflexivity.
    + intros Hli. rewrite Hli. simpl. rewrite lookup_empty. reflexivity.
  - intros Hm. rewrite Hm. reflexivity.
Qed.

End WriterPrepare.

(** C5 at the metadata with main_language "R" and language_info.name
    "python", written as .py: the default language is "R". *)
Lemma default_language_precedence_witness :
  let md : Metadata :=
    <["main_language" := VStr "R"]>
      (<["language_info" := VDict {[ "name" := VStr "python" ]}]> ∅) in
  result_map snd
    (TextNotebookWriter.writes_prepare (H := Sample.collaborators)
       (TextNotebookWriter.__init__ ".py") 1%positive
       (Sample.world_with (Build_Notebook [] md))).2
  = Ok (VStr "R").
Proof.
  intros md.
  apply (default_language_precedence (H := Sample.collaborators)
           (TextNotebookWriter.__init__ ".py") 1%positive
           (Sample.world_with (Build_Notebook [] md)) (Build_Notebook [] md)
           "python").
  - reflexivity.
  - left. split; reflexivity.
  - reflexivity.
Defined.

(** C5, as stated, fails when main_language is present but empty: the
    default language is then taken from language_info. *)
Lemma main_language_empty_counterexample :
  let md : Metadata :=
    <["main_language" := VStr ""]>
      (<["language_info" := VDict {[ "name" := VStr "python" ]}]> ∅) in
  md !! "main_language" = Some (VStr "")
  /\ result_map snd
       (TextNotebookWriter.writes_prepare (H := Sample.collaborators)
          (TextNotebookWriter.__init__ ".R") 1%positive
          (Sample.world_with (Build_Notebook [] md))).2
     = Ok (VStr "python").
Proof. split; vm_compute; reflexivity. Qed.

(** ** The writer: the end of cell marker *)

Section EndMarker.
Context `{Collaborators}.

(** C7 (as amended): when writing .py, a code cell whose text ends with
    the marker ['# -'] loses that last line when it is the last cell of
    the notebook, or when the text of the next cell begins with
    ['# + {']; when the next cell begins otherwise the marker is kept.
    (After the text come the blank lines of [skiplines].) *)
Theorem end_marker_elision (self : TextNotebookWriter.t) (cs : list Exporter)
    (texts : list (list string)) (i : nat) (cell : Exporter) (text : list string) :
  TextNotebookWriter.ext self = ".py" ->
  cs !! i = Some cell ->
  texts !! i = Some text ->
  is_code cell = true ->
  last text = Some "# -" ->
  let blanks := replicate (Z.to_nat (skiplines cell)) "" in
  (texts !! (i + 1)%nat = None ->
   TextNotebookWriter.cell_lines self cs texts i = Ok (removelast text ++ blanks))
  /\ (forall next first,
        texts !! (i + 1)%nat = Some next -> head next = Some first ->
        TextNotebookWriter.cell_lines self cs texts i
        = if PyStr.startswith first "# + {"
          then Ok (removelast text ++ blanks)
          else Ok (text ++ blanks)).
Proof.
  intros Hext Hc Ht Hcode Hlast blanks.
  unfold TextNotebookWriter.cell_lines, TextNotebookWriter.strip_end_marker.
  rewrite Hc, Ht, Hext, Hcode, Hlast.
  change (PyStr.eqb ".py" ".py") with true.
  change (PyStr.eqb ".py" ".Rmd") with false.
  change (PyStr.eqb "# -" "# -") with true.
  cbn [andb].
  split.
  - intros ->. rewrite app_nil_r. reflexivity.
  - intros next first -> ->.
    destruct (PyStr.startswith first "# + {"); rewrite app_nil_r; reflexivity.
Qed.

End EndMarker.

(** C7 at a notebook of two code cells, the second of which opens with
    ['# + {}']: the first cell loses its marker. *)
Lemma end_marker_elision_witness :
  TextNotebookWriter.cell_lines (H := Sample.collaborators)
    (TextNotebookWriter.__init__ ".py")
    [Sample.code_cell "1+1"; Sample.code_cell "2"]
    [["1+1"; "# -"]; ["# + {}"; "2"; "# -"]] 0
  = Ok ["1+1"; ""].
Proof.
  destruct (end_marker_elision (H := Sample.collaborators)
              (TextNotebookWriter.__init__ ".py")
              [Sample.code_cell "1+1"; Sample.code_cell "2"]
              [["1+1"; "# -"]; ["# + {}"; "2"; "# -"]] 0%nat
              (Sample.code_cell "1+1") ["1+1"; "# -"]
              eq_refl eq_refl eq_refl eq_refl eq_refl) as [_ Hnext].
  exact (Hnext ["# + {}"; "2"; "# -"] "# + {}" eq_refl eq_refl).
Defined.

(** C7, as stated, fails for the last cell: no cell follows it, and the
    marker is removed all the same.  The notebook has one code cell
    ["1+1"], whose text is ["1+1"; "# -"]. *)
Lemma last_cell_marker_counterexample :
  let self := TextNotebookWriter.__init__ ".py" in
  let cs := [Sample.code_cell "1+1"] in
  let texts := [["1+1"; "# -"]] in
  mapM (fun cell => lift (cell_to_text (Collaborators := Sample.collaborators) cell))
       cs empty_world = (empty_world, Ok texts)
  /\ texts !! 1%nat = None
  /\ TextNotebookWriter.cell_lines (H := Sample.collaborators) self cs texts 0
     = Ok ["1+1"; ""]
  /\ (TextNotebookWriter.writes (H := Sample.collaborators) self 1%positive
        (Sample.world_with (Build_Notebook cs ∅))).2
     = Ok ("1+1" +:+ PyStr.LF).
Proof. repeat split; vm_compute; reflexivity. Qed.

(** ** The entry points *)

Lemma readers_table :
  _NOTEBOOK_READERS
  = <[".Rmd" := TextNotebookReader.__init__ ".Rmd"]>
      (<[".py" := TextNotebookReader.__init__ ".py"]>
         (<[".R" := TextNotebookReader.__init__ ".R"]> ∅)).
Proof. reflexivity. Qed.

Lemma writers_table :
  _NOTEBOOK_WRITERS
  = <[".Rmd" := TextNotebookWriter.__init__ ".Rmd"]>
      (<[".py" := TextNotebookWriter.__init__ ".py"]>
         (<[".R" := TextNotebookWriter.__init__ ".R"]> ∅)).
Proof. reflexivity. Qed.

Lemma unsupported_cases (ext : string) :
  ext ∉ NOTEBOOK_EXTENSIONS ->
  ext <> ".ipynb" /\ ext <> ".Rmd" /\ ext <> ".py" /\ ext <> ".R".
Proof.
  unfold NOTEBOOK_EXTENSIONS. intros Hn.
  repeat split; intros ->; apply Hn; set_solver.
Qed.

Lemma readers_unsupported (ext : string) :
  ext ∉ NOTEBOOK_EXTENSIONS -> _NOTEBOOK_READERS !! ext = None.
Proof.
  intros Hn. destruct (unsupported_cases ext Hn) as (_ & H1 & H2 & H3).
  rewrite readers_table.
  rewrite !lookup_insert_ne by congruence. apply lookup_empty.
Qed.

Lemma writers_unsupported (ext : string) :
  ext ∉ NOTEBOOK_EXTENSIONS -> _NOTEBOOK_WRITERS !! ext = None.
Proof.
  intros Hn. destruct (unsupported_cases ext Hn) as (_ & H1 & H2 & H3).
  rewrite writers_table.
  rewrite !lookup_insert_ne by congruence. apply lookup_empty.
Qed.

Section EntryPointProperties.
Context `{Collaborators}.

(** C2: an extension outside [NOTEBOOK_EXTENSIONS] is rejected before
    anything is parsed, read, written or opened: [reads], [read],
    [writes] and [write] raise the [KeyError] of the failed lookup of
    the extension, [readf] and [writef] raise the [TypeError] that says
    the file is not a notebook, and the world (objects, files, log of
    calls and of I/O) is left as it was. *)
Theorem unsupported_extension_rejected (ext : string) (w : World) :
  ext ∉ NOTEBOOK_EXTENSIONS ->
  (forall text v, reads text v (Some ext) w = (w, Raise (KeyError ext)))
  /\ (forall fp v, read fp v (Some ext) w = (w, Raise (KeyError ext)))
  /\ (forall nb v, writes nb v (Some ext) w = (w, Raise (KeyError ext)))
  /\ (forall nb fp v, write nb fp v (Some ext) w = (w, Raise (KeyError ext)))
  /\ (forall nb_file, snd (splitext nb_file) = ext ->
        readf nb_file w = (w, Raise (TypeError (not_a_notebook nb_file))))
  /\ (forall nb nb_file, snd (splitext nb_file) = ext ->
        writef nb nb_file w = (w, Raise (TypeError (not_a_notebook nb_file)))).
Proof.
  intros Hn.
  pose proof (readers_unsupported ext Hn) as Hr.
  pose proof (writers_unsupported ext Hn) as Hw.
  destruct (unsupported_cases ext Hn) as (Hipynb & _).
  apply eqb_false in Hipynb.
  repeat split.
  - intros text v.
    unfold reads. simpl. rewrite Hipynb. unfold bind, getitem. rewrite Hr. reflexivity.
  - intros fp v.
    unfold read. simpl. rewrite Hipynb. unfold bind, getitem. rewrite Hr. reflexivity.
  - intros nb v.
    unfold writes. simpl. rewrite Hipynb. unfold bind, getitem. rewrite Hw. reflexivity.
  - intros nb fp v.
    unfold write. simpl. rewrite Hipynb. unfold bind, getitem. rewrite Hw. reflexivity.
  - intros nb_file Hext.
    unfold readf. rewrite Hext, (bool_decide_eq_false_2 _ Hn). reflexivity.
  - intros nb nb_file Hext.
    unfold writef. rewrite Hext, (bool_decide_eq_false_2 _ Hn). reflexivity.
Qed.

(** C10: [reads], [read], [writes] and [write] called without an
    extension behave as with the extension ['.Rmd']: they run the reader
    or the writer of the .Rmd profile. *)
Theorem default_extension_is_Rmd (text fp : string) (nb : loc)
    (as_version version : option Z) :
  reads text as_version None = reads text as_version (Some ".Rmd")
  /\ read fp as_version None = read fp as_version (Some ".Rmd")
  /\ writes nb version None = writes nb version (Some ".Rmd")
  /\ write nb fp version None = write nb fp version (Some ".Rmd")
  /\ (forall w,
        reads text as_version None w
        = TextNotebookReader.reads (TextNotebookReader.__init__ ".Rmd") text w
        /\ read fp as_version None w
          = TextNotebookReader.read (TextNotebookReader.__init__ ".Rmd") fp w
        /\ writes nb version None w
          = TextNotebookWriter.writes (TextNotebookWriter.__init__ ".Rmd") nb w
        /\ write nb fp version None w
          = TextNotebookWriter.write (TextNotebookWriter.__init__ ".Rmd") nb fp w).
Proof.
  repeat split; reflexivity.
Qed.

End EntryPointProperties.

(** C2 at the extension ['.txt']: [reads] with [ext='.txt'] and
    [readf('notes.txt')]. *)
Lemma unsupported_extension_rejected_witness :
  reads (H := Sample.collaborators) "some text" None (Some ".txt") empty_world
  = (empty_world, Raise (KeyError ".txt"))
  /\ readf (H := Sample.collaborators) "notes.txt" empty_world
     = (empty_world,
        Raise (TypeError
          "File notes.txt is not a notebook. Expected extensions are ['.ipynb', '.Rmd', '.py', '.R']")).
Proof.
  assert (Hn : ".txt" ∉ NOTEBOOK_EXTENSIONS)
    by (apply (bool_decide_eq_true_1 _); reflexivity).
  destruct (unsupported_extension_rejected (H := Sample.collaborators)
              ".txt" empty_world Hn) as (Hreads & _ & _ & _ & Hreadf & _).
  split.
  - apply Hreads.
  - apply (Hreadf "notes.txt"). reflexivity.
Defined.

(** ** The reader: progress of the loop *)

Section ReaderProgress.
Context `{Collaborators}.

(** The loop of [to_notebook], unfolded once. *)
Lemma parse_cells_unfold (ext : string) (lines : list string) (cs : list Cell)
    (w : World) :
  TextNotebookReader.parse_cells ext lines cs w
  = match lines with
    | [] => (w, Ok cs)
    | _ :: _ =>
        let w' := TextNotebookReader.called (CallTextToCell lines) w in
        match text_to_cell ext lines with
        | Raise e => (w', Raise e)
        | Ok (cell, pos) =>
            if pos <=? 0 then (w', Raise (TextNotebookReader.blocked lines))
            else TextNotebookReader.parse_cells ext (drop (Z.to_nat pos) lines)
                   (cs ++ [cell]) w'
        end
    end.
Proof.
  destruct lines as [|l ls].
  - simp parse_cells. reflexivity.
  - simp parse_cells.
    destruct (text_to_cell ext (l :: ls)) as [[cell pos]|e];
      simp parse_cells; [|reflexivity].
    cbn zeta. unfold Logic.inspect. simpl.
    destruct (pos <=? 0); reflexivity.
Qed.

(** The calls of [text_to_cell] that the loop makes from [lines]. *)
Lemma parse_cells_calls (ext : string) (n : nat) :
  forall (lines : list string) (cs : list Cell) (w : World),
    (length lines <= n)%nat ->
    exists calls,
      (TextNotebookReader.parse_cells ext lines cs w).1
      = Build_World (store w) (files w) (log w ++ map CallTextToCell calls)
      /\ head calls = match lines with [] => None | _ => Some lines end
      /\ Forall (fun l => l <> []) calls
      /\ (forall i l1 l2, calls !! i = Some l1 -> calls !! S i = Some l2 ->
                          advances ext l1 l2)
      /\ (forall l cell pos, l ∈ calls -> text_to_cell ext l = Ok (cell, pos) ->
                             pos <= 0 ->
                             (TextNotebookReader.parse_cells ext lines cs w).2
                             = Raise (TextNotebookReader.blocked l)).
Proof.
  induction n as [|n IH]; intros lines cs w Hlen.
  - destruct lines as [|l ls]; [|simpl in Hlen; lia].
    exists []. rewrite parse_cells_unfold. simpl. rewrite app_nil_r.
    repeat split.
    + destruct w; reflexivity.
    + constructor.
    + intros i l1 l2 Hl1. rewrite lookup_nil in Hl1. discriminate.
    + intros l cell pos Hin. apply elem_of_nil in Hin. contradiction.
  - destruct lines as [|l ls].
    + exists []. rewrite parse_cells_unfold. simpl. rewrite app_nil_r.
      repeat split.
      * destruct w; reflexivity.
      * constructor.
      * intros i l1 l2 Hl1. rewrite lookup_nil in Hl1. discriminate.
      * intros l cell pos Hin. apply elem_of_nil in Hin. contradiction.
    + rewrite parse_cells_unfold. cbv zeta.
      destruct (text_to_cell ext (l :: ls)) as [[cell pos]|e] eqn:Hcall.
      * destruct (pos <=? 0) eqn:Hpos.
        -- exists [l :: ls]. repeat split.
           ++ constructor; [discriminate | constructor].
           ++ intros i l1 l2 _ Hl2.
              rewrite lookup_cons, lookup_nil in Hl2. discriminate.
           ++ intros l' cell' pos' Hin _ _.
              apply list_elem_of_singleton in Hin. subst l'. reflexivity.
        -- apply Z.leb_gt in Hpos.
           set (w' := TextNotebookReader.called (CallTextToCell (l :: ls)) w).
           set (rest := drop (Z.to_nat pos) (l :: ls)).
           assert (Hshorter : (length rest < length (l :: ls))%nat).
           { unfold rest. rewrite length_drop. simpl. lia. }
           destruct (IH rest (cs ++ [cell]) w') as
             (calls & Hlog & Hhead & Hne & Hchain & Hblocked).
           { simpl in Hshorter, Hlen. lia. }
           exists ((l :: ls) :: calls). repeat split.
           ++ rewrite Hlog. simpl. rewrite <- app_assoc. reflexivity.
           ++ constructor; [discriminate | exact Hne].
           ++ intros i l1 l2 Hl1 Hl2. destruct i as [|i].
              ** simpl in Hl1. injection Hl1 as <-.
                 rewrite lookup_cons in Hl2. rewrite <- head_lookup in Hl2.
                 rewrite Hhead in Hl2.
                 destruct rest as [|r rs] eqn:Hrest; [discriminate|].
                 injection Hl2 as <-.
                 exists cell, pos. repeat split; try assumption.
                 rewrite <- Hrest. reflexivity.
              ** rewrite !lookup_cons in Hl1, Hl2. exact (Hchain i l1 l2 Hl1 Hl2).
           ++ intros l' cell' pos' Hin Hcall' Hpos'.
              apply elem_of_cons in Hin as [->|Hin].
              ** rewrite Hcall in Hcall'. injection Hcall' as _ <-. lia.
              ** exact (Hblocked l' cell' pos' Hin Hcall' Hpos').
      * exists [l :: ls]. repeat split.
        -- constructor; [discriminate | constructor].
        -- intros i l1 l2 _ Hl2.
           rewrite lookup_cons, lookup_nil in Hl2. discriminate.
        -- intros l' cell' pos' Hin Hcall' _.
           apply list_elem_of_singleton in Hin. subst l'.
           rewrite Hcall in Hcall'. discriminate.
Qed.

(** What [to_notebook] does after the header was read and the loop
    has run: the language step, which does not touch the world, and the
    new notebook. *)
Lemma to_notebook_run (self : TextNotebookReader.t) (text : string) (w : World) :
  let w0 := TextNotebookReader.called
              (CallHeaderToMetadataAndCell (splitlines text)) w in
  match header_to_metadata_and_cell (TextNotebookReader.ext self) (splitlines text) with
  | Raise e => TextNotebookReader.to_notebook self text w = (w0, Raise e)
  | Ok (md, header_cell, pos) =>
      let cs0 := match header_cell with Some c => [c] | None => [] end in
      let lines := if 0 <? pos then drop (Z.to_nat pos) (splitlines text)
                   else splitlines text in
      match TextNotebookReader.parse_cells (TextNotebookReader.ext self) lines cs0 w0 with
      | (w1, Raise e) => TextNotebookReader.to_notebook self text w = (w1, Raise e)
      | (w1, Ok cs) =>
          let step :=
            if PyStr.eqb (TextNotebookReader.ext self) ".Rmd"
            then find_main_language md cs
            else if PyStr.eqb (TextNotebookReader.ext self) ".R" then
              if negb (truthy (py_or (get md "main_language")
                                     (get_default md "language_info" (VDict ∅))))
              then Ok (<["main_language" := VStr "R"]> md, cs)
              else Ok (md, cs)
            else Ok (md, cs) in
          match step with
          | Raise e => TextNotebookReader.to_notebook self text w = (w1, Raise e)
          | Ok (md', cs') =>
              TextNotebookReader.to_notebook self text w = new_notebook cs' md' w1
          end
      end
  end.
Proof.
  unfold TextNotebookReader.to_notebook, TextNotebookReader.called, bind, emit, lift.
  cbv zeta beta iota.
  destruct (header_to_metadata_and_cell _ _) as [[[md hc] pos]|e]; [|reflexivity].
  cbv beta iota.
  destruct (TextNotebookReader.parse_cells _ _ _ _) as [w1 [cs|e]]; [|reflexivity].
  destruct (PyStr.eqb (TextNotebookReader.ext self) ".Rmd").
  - destruct (find_main_language md cs) as [[md' cs']|e]; reflexivity.
  - destruct (PyStr.eqb (TextNotebookReader.ext self) ".R"); [|reflexivity].
    destruct (negb _); reflexivity.
Qed.

(** [new_notebook] touches neither the files nor the log. *)
Lemma new_notebook_world (cs : list Cell) (md : Metadata) (w : World) :
  files (new_notebook cs md w).1 = files w
  /\ log (new_notebook cs md w).1 = log w.
Proof.
  unfold new_notebook, bind, lift.
  destruct (validate (Build_Notebook cs md)) as [[]|e]; split; reflexivity.
Qed.

(** C3: the loop of [to_notebook] calls [text_to_cell] on non empty
    lists of lines only, each call but the last took at least one line
    and the next call gets the rest, and when a call reports a count
    that is not positive, [to_notebook] raises the exception whose
    message gives the first six of the lines that call was given, and
    no notebook object is created. *)
Theorem to_notebook_progress (self : TextNotebookReader.t) (text : string)
    (w : World) :
  exists calls,
    log (TextNotebookReader.to_notebook self text w).1
    = log w ++ CallHeaderToMetadataAndCell (splitlines text)
              :: map CallTextToCell calls
    /\ Forall (fun lines => lines <> []) calls
    /\ (forall i l1 l2, calls !! i = Some l1 -> calls !! S i = Some l2 ->
                        advances (TextNotebookReader.ext self) l1 l2)
    /\ (forall lines cell pos,
          lines ∈ calls ->
          text_to_cell (TextNotebookReader.ext self) lines = Ok (cell, pos) ->
          pos <= 0 ->
          (TextNotebookReader.to_notebook self text w).2
          = Raise (Exception ("Blocked at lines "
                              +:+ PyStr.join PyStr.LF (take 6 lines)))
          /\ store (TextNotebookReader.to_notebook self text w).1 = store w).
Proof.
  pose proof (to_notebook_run self text w) as Hrun. cbv zeta in Hrun.
  set (w0 := TextNotebookReader.called
               (CallHeaderToMetadataAndCell (splitlines text)) w) in *.
  destruct (header_to_metadata_and_cell _ _) as [[[md hc] pos]|e].
  - set (cs0 := match hc with Some c => [c] | None => [] end) in *.
    set (lines := if 0 <? pos then drop (Z.to_nat pos) (splitlines text)
                  else splitlines text) in *.
    destruct (parse_cells_calls (TextNotebookReader.ext self) (length lines)
                lines cs0 w0 (le_n _))
      as (calls & Hlog & _ & Hne & Hchain & Hblocked).
    exists calls.
    destruct (TextNotebookReader.parse_cells _ lines cs0 w0) as [w1 [cs|e]] eqn:Hparse.
    + simpl in Hlog. subst w1.
      assert (Hl : log (TextNotebookReader.to_notebook self text w).1
                   = log w ++ CallHeaderToMetadataAndCell (splitlines text)
                             :: map CallTextToCell calls).
      { match type of Hrun with
        | match ?step with _ => _ end => destruct step as [[md' cs']|e]
        end; rewrite Hrun; [rewrite (proj2 (new_notebook_world _ _ _))|];
          simpl; rewrite <- app_assoc; reflexivity. }
      split; [exact Hl|]. split; [exact Hne|]. split; [exact Hchain|].
      intros l cell p Hin Hcall Hp.
      specialize (Hblocked l cell p Hin Hcall Hp). discriminate.
    + simpl in Hlog. subst w1. rewrite Hrun. simpl.
      split; [rewrite <- app_assoc; reflexivity|].
      split; [exact Hne|]. split; [exact Hchain|].
      intros l cell p Hin Hcall Hp.
      specialize (Hblocked l cell p Hin Hcall Hp). simpl in Hblocked.
      injection Hblocked as ->. split; reflexivity.
  - exists []. rewrite Hrun. simpl.
    split; [reflexivity|]. split; [constructor|]. split.
    + intros i l1 l2 Hl1. rewrite lookup_nil in Hl1. discriminate.
    + intros l cell p Hin. apply elem_of_nil in Hin. contradiction.
Qed.

End ReaderProgress.

(** ** The .R dialect: a redundant main language *)

Lemma eq_str_get (md : Metadata) (key s : string) :
  eq_str (get md key) s = true <-> md !! key = Some (VStr s).
Proof.
  unfold get, eq_str. destruct (md !! key) as [v|]; simpl.
  - destruct v; simpl; try (split; [discriminate | intros [=]]).
    rewrite eqb_true. split; [intros ->; reflexivity | intros [=]; assumption].
  - split; discriminate.
Qed.


(** ** The writer works on a private copy *)

Lemma extends_refl (s : Store) : extends s s.
Proof. repeat split; reflexivity. Qed.

Lemma view_extends (s0 s : Store) (nb : loc) (n : Notebook) :
  extends s0 s -> view s0 nb = Some n -> view s nb = Some n.
Proof.
  intros (Hn & Hd & Hl). unfold view.
  destruct (notebooks s0 !! nb) as [[lm lc]|] eqn:Hnb; [|discriminate].
  destruct (dicts s0 !! lm) as [d|] eqn:Hlm; [|discriminate].
  destruct (lists s0 !! lc) as [cs|] eqn:Hlc; [|discriminate].
  intros Hv.
  rewrite (lookup_weaken _ _ _ _ Hnb Hn), (lookup_weaken _ _ _ _ Hlm Hd),
    (lookup_weaken _ _ _ _ Hlc Hl).
  exact Hv.
Qed.

Section PrivateCopy.
Context `{Collaborators}.
Variables (s0 : Store) (copy lm lc : loc).

Lemma keeps_ret {A} (a : A) : keeps_private s0 copy lm lc (ret a).
Proof. intros w Hw. exact Hw. Qed.

Lemma keeps_lift {A} (r : result A) : keeps_private s0 copy lm lc (lift r).
Proof. intros w Hw. exact Hw. Qed.

(** Sequencing, when what the first computation returns is known to
    satisfy [Q]. *)
Lemma keeps_bind {A B} (Q : A -> Prop) (c : M A) (k : A -> M B) :
  keeps_private s0 copy lm lc c ->
  (forall w a, private_copy s0 copy lm lc w -> (c w).2 = Ok a -> Q a) ->
  (forall a, Q a -> keeps_private s0 copy lm lc (k a)) ->
  keeps_private s0 copy lm lc (bind c k).
Proof.
  intros Hc HQ Hk w Hw. unfold bind.
  specialize (Hc w Hw). specialize (HQ w).
  destruct (c w) as [w' [a|e]]; simpl in *.
  - apply (Hk a); [apply HQ; [assumption | reflexivity] | assumption].
  - assumption.
Qed.

Lemma keeps_mapM_lift {A B} (f : A -> result B) (l : list A) :
  keeps_private s0 copy lm lc (mapM (fun x => lift (f x)) l).
Proof.
  induction l as [|x l IH]; simpl.
  - apply keeps_ret.
  - apply (keeps_bind (fun _ => True)); [apply keeps_lift | trivial |].
    intros y _.
    apply (keeps_bind (fun _ => True)); [exact IH | trivial |].
    intros ys _. apply keeps_ret.
Qed.

Lemma keeps_attr_metadata :
  keeps_private s0 copy lm lc (attr_metadata copy)
  /\ forall w a, private_copy s0 copy lm lc w ->
                 (attr_metadata copy w).2 = Ok a -> a = lm.
Proof.
  split.
  - intros w Hw. unfold attr_metadata.
    destruct (notebooks (store w) !! copy) as [[a b]|]; exact Hw.
  - intros w a (_ & Hnb & _) Hr. unfold attr_metadata in Hr.
    rewrite Hnb in Hr. simpl in Hr. congruence.
Qed.

Lemma keeps_attr_cells :
  keeps_private s0 copy lm lc (attr_cells copy)
  /\ forall w a, private_copy s0 copy lm lc w ->
                 (attr_cells copy w).2 = Ok a -> a = lc.
Proof.
  split.
  - intros w Hw. unfold attr_cells.
    destruct (notebooks (store w) !! copy) as [[a b]|]; exact Hw.
  - intros w a (_ & Hnb & _) Hr. unfold attr_cells in Hr.
    rewrite Hnb in Hr. simpl in Hr. congruence.
Qed.

Lemma keeps_load_dict (l : loc) : keeps_private s0 copy lm lc (load_dict l).
Proof.
  intros w Hw. unfold load_dict. destruct (dicts (store w) !! l); exact Hw.
Qed.

Lemma keeps_load_list (l : loc) : keeps_private s0 copy lm lc (load_list l).
Proof.
  intros w Hw. unfold load_list. destruct (lists (store w) !! l); exact Hw.
Qed.

(** An update of the copy's own metadata mapping. *)
Lemma keeps_store_dict (d : Metadata) :
  keeps_private s0 copy lm lc (store_dict lm d).
Proof.
  intros w ((Hn & Hd & Hl) & Hnb & Hlm & Hlc). unfold store_dict. simpl.
  repeat split; try assumption.
  simpl. apply insert_subseteq_r; assumption.
Qed.

(** An update of the copy's own cell list. *)
Lemma keeps_store_list (cs : list Cell) :
  keeps_private s0 copy lm lc (store_list lc cs).
Proof.
  intros w ((Hn & Hd & Hl) & Hnb & Hlm & Hlc). unfold store_list. simpl.
  repeat split; try assumption.
  simpl. apply insert_subseteq_r; assumption.
Qed.

(** A collaborator that runs on the copy. *)
Lemma keeps_on_notebook {A} (f : Notebook -> Notebook * result A) :
  keeps_private s0 copy lm lc (on_notebook copy f).
Proof.
  unfold on_notebook.
  apply (keeps_bind (fun a => a = lm)); [apply keeps_attr_metadata.. |].
  intros ? ->.
  apply (keeps_bind (fun a => a = lc)); [apply keeps_attr_cells.. |].
  intros ? ->.
  apply (keeps_bind (fun _ => True)); [apply keeps_load_dict | trivial |].
  intros d _.
  apply (keeps_bind (fun _ => True)); [apply keeps_load_list | trivial |].
  intros cs _.
  destruct (f (Build_Notebook cs d)) as [nb' r].
  apply (keeps_bind (fun _ => True)); [apply keeps_store_dict | trivial |].
  intros _ _.
  apply (keeps_bind (fun _ => True)); [apply keeps_store_list | trivial |].
  intros _ _. apply keeps_lift.
Qed.

End PrivateCopy.

Section WriterFrame.
Context `{Collaborators}.

Lemma keeps_resolve_default_language (self : TextNotebookWriter.t)
    (s0 : Store) (copy lm lc : loc) :
  keeps_private s0 copy lm lc
    (TextNotebookWriter.resolve_default_language self copy).
Proof.
  unfold TextNotebookWriter.resolve_default_language.
  destruct (PyStr.eqb (TextNotebookWriter.ext self) ".py");
    [|destruct (PyStr.eqb (TextNotebookWriter.ext self) ".R")].
  - apply (keeps_bind _ _ _ _ (fun a => a = lm)); [apply keeps_attr_metadata.. |].
    intros ? ->.
    apply (keeps_bind _ _ _ _ (fun _ => True)); [apply keeps_load_dict | trivial |].
    intros md _. apply keeps_lift.
  - apply (keeps_bind _ _ _ _ (fun a => a = lm)); [apply keeps_attr_metadata.. |].
    intros ? ->.
    apply (keeps_bind _ _ _ _ (fun _ => True)); [apply keeps_load_dict | trivial |].
    intros md _.
    apply (keeps_bind _ _ _ _ (fun _ => True)); [apply keeps_lift | trivial |].
    intros dl _.
    apply (keeps_bind _ _ _ _ (fun _ => True)); [| trivial |].
    + destruct (eq_str _ _); [apply keeps_store_dict | apply keeps_ret].
    + intros _ _. apply keeps_ret.
  - apply keeps_on_notebook.
Qed.

Lemma keeps_writes_render (self : TextNotebookWriter.t) (default_language : value)
    (s0 : Store) (copy lm lc : loc) :
  keeps_private s0 copy lm lc
    (TextNotebookWriter.writes_render self copy default_language).
Proof.
  unfold TextNotebookWriter.writes_render.
  apply (keeps_bind _ _ _ _ (fun _ => True)); [apply keeps_on_notebook | trivial |].
  intros lines _.
  apply (keeps_bind _ _ _ _ (fun _ => True)); [apply keeps_on_notebook | trivial |].
  intros header _.
  apply (keeps_bind _ _ _ _ (fun _ => True)); [apply keeps_attr_cells | trivial |].
  intros l _.
  apply (keeps_bind _ _ _ _ (fun _ => True)); [apply keeps_load_list | trivial |].
  intros nb_cells _.
  apply (keeps_bind _ _ _ _ (fun _ => True)); [apply keeps_mapM_lift | trivial |].
  intros cs _.
  apply (keeps_bind _ _ _ _ (fun _ => True)); [apply keeps_mapM_lift | trivial |].
  intros texts _.
  apply (keeps_bind _ _ _ _ (fun _ => True)); [apply keeps_mapM_lift | trivial |].
  intros body _. apply keeps_ret.
Qed.

(** C4: whatever the extension and the collaborators do, [writes]
    leaves every object of the caller's store as it was, so that the
    caller's notebook has the metadata and the cells it had: the edits
    go to the copy. *)
Theorem writes_preserves_caller_notebook (self : TextNotebookWriter.t)
    (nb : loc) (w : World) :
  let w' := (TextNotebookWriter.writes self nb w).1 in
  notebooks (store w) ⊆ notebooks (store w')
  /\ dicts (store w) ⊆ dicts (store w')
  /\ lists (store w) ⊆ lists (store w')
  /\ view (store w') nb = view (store w) nb.
Proof.
  intros w'.
  destruct (view (store w) nb) as [n|] eqn:Hv.
  - assert (Hext : extends (store w) (store w')).
    { destruct (deepcopy_spec w nb n Hv) as (lm & lc & copy & Hcopy & Hn & Hd & Hl).
      set (w1 := (deepcopy nb w).1).
      assert (Hw1 : private_copy (store w) copy lm lc w1).
      { unfold w1. rewrite Hcopy. simpl. repeat split; simpl.
        - apply insert_subseteq. exact Hn.
        - apply insert_subseteq. exact Hd.
        - apply insert_subseteq. exact Hl.
        - apply lookup_insert_eq.
        - exact Hd.
        - exact Hl. }
      assert (Hrest : keeps_private (store w) copy lm lc
                (let* default_language :=
                   TextNotebookWriter.resolve_default_language self copy in
                 TextNotebookWriter.writes_render self copy default_language)).
      { apply (keeps_bind _ _ _ _ (fun _ => True));
          [apply keeps_resolve_default_language | trivial |].
        intros dl _. apply keeps_writes_render. }
      specialize (Hrest w1 Hw1).
      assert (Hw' : w' = ((let* default_language :=
                             TextNotebookWriter.resolve_default_language self copy in
                           TextNotebookWriter.writes_render self copy default_language)
                            w1).1).
      { unfold w', w1, TextNotebookWriter.writes, TextNotebookWriter.writes_prepare.
        unfold bind at 1 2. rewrite Hcopy. cbv beta iota.
        unfold bind, ret.
        destruct (TextNotebookWriter.resolve_default_language self copy _)
          as [w2 [dl|e]]; reflexivity. }
      rewrite Hw'. apply Hrest. }
    destruct Hext as (Hn & Hd & Hl).
    repeat split; try assumption.
    apply (view_extends (store w)); [repeat split; assumption | exact Hv].
  - destruct (deepcopy_none w nb Hv) as [e He].
    assert (Hw' : w' = w).
    { unfold w', TextNotebookWriter.writes, TextNotebookWriter.writes_prepare.
      unfold bind at 1 2. rewrite He. reflexivity. }
    rewrite Hw'. repeat split; try reflexivity. exact Hv.
Qed.

End WriterFrame.

(** ** The properties on the sample dialect *)

(** C3 at the text of three lines ["a"], [""], ["b"]: the sample parser
    takes the first line and is stuck on the empty one. *)
Lemma to_notebook_progress_witness :
  let text := "a" +:+ PyStr.LF +:+ PyStr.LF +:+ "b" in
  let run := TextNotebookReader.to_notebook (H := Sample.collaborators)
               (TextNotebookReader.__init__ ".py") text empty_world in
  run.2 = Raise (Exception ("Blocked at lines " +:+ PyStr.LF +:+ "b"))
  /\ store run.1 = store empty_world.
Proof.
  intros text run.
  destruct (to_notebook_progress (H := Sample.collaborators)
              (TextNotebookReader.__init__ ".py") text empty_world)
    as (calls & Hlog & _ & _ & Hblocked).
  vm_compute in Hlog.
  destruct calls as [|c1 [|c2 [|c3 calls]]]; try discriminate Hlog.
  injection Hlog as Hc1 Hc2. subst c1 c2.
  apply (Hblocked [""; "b"] (Sample.line_cell "") 0).
  - right. left.
  - reflexivity.
  - reflexivity.
Defined.

(** The writer on a notebook whose main language is 'R', written as
    .R: the caller's notebook keeps its main language; the copy, which
    is the notebook the header is rendered from, has lost it. *)
Example writes_R_edits_the_copy :
  let md : Metadata := <["main_language" := VStr "R"]> ∅ in
  let w := Sample.world_with (Build_Notebook [Sample.code_cell "1+1"] md) in
  let w' := (TextNotebookWriter.writes (H := Sample.collaborators)
               (TextNotebookWriter.__init__ ".R") 1%positive w).1 in
  view (store w') 1%positive = Some (Build_Notebook [Sample.code_cell "1+1"] md)
  /\ view (store w') 6%positive = Some (Build_Notebook [Sample.code_cell "1+1"] ∅).
Proof. split; vm_compute; reflexivity. Qed.

(** * Further properties *)

(** ** Markdown escaping, on every line *)

Lemma prefix_app (p s : string) : String.prefix p (p +:+ s) = true.
Proof.
  induction p as [|c p IH]; simpl.
  - destruct s; reflexivity.
  - destruct (ascii_dec c c) as [_|Hne]; [exact IH | contradiction].
Qed.

Lemma prefix_refl (p : string) : String.prefix p p = true.
Proof.
  induction p as [|c p IH]; simpl; [reflexivity|].
  destruct (ascii_dec c c) as [_|Hne]; [exact IH | contradiction].
Qed.

Lemma markdown_comment_empty (ext : string) :
  markdown_comment ext = "" <-> ext = ".Rmd".
Proof.
  unfold markdown_comment.
  destruct (PyStr.eqb ext ".Rmd") eqn:H1.
  - apply eqb_true in H1. split; [intros _; exact H1 | reflexivity].
  - apply eqb_false in H1.
    destruct (PyStr.eqb ext ".R"); split; (discriminate || contradiction).
Qed.

(** X1: whatever the extension, and whatever the lines are (also lines
    that start with the comment prefix, or with spaces, and empty
    lines), [markdown_unescape] on each line of [markdown_escape] gives
    the lines back. *)
Theorem unescape_escape_all_lines (ext : string) (lines : list string) :
  map (TextNotebookReader.markdown_unescape (TextNotebookReader.__init__ ext))
      (TextNotebookWriter.markdown_escape (TextNotebookWriter.__init__ ext) lines)
  = lines.
Proof.
  induction lines as [|line lines IH].
  - unfold TextNotebookWriter.markdown_escape. simpl.
    destruct (PyStr.eqb (markdown_comment ext) ""); reflexivity.
  - pose proof (unescape_escape_line ext line) as Hline.
    unfold TextNotebookWriter.markdown_escape in *. simpl in *.
    destruct (PyStr.eqb (markdown_comment ext) ""); simpl in *.
    + injection Hline as Hline. rewrite Hline. f_equal. exact IH.
    + injection Hline as Hline. rewrite Hline. f_equal. exact IH.
Qed.

(** X2: [markdown_escape] gives one line for each line, and each of
    them starts with the comment prefix of the extension. *)
Theorem escaped_lines_start_with_prefix (ext : string) (lines : list string) :
  let escaped :=
    TextNotebookWriter.markdown_escape (TextNotebookWriter.__init__ ext) lines in
  length escaped = length lines
  /\ Forall (fun line => PyStr.startswith line (markdown_comment ext) = true)
            escaped.
Proof.
  unfold TextNotebookWriter.markdown_escape, PyStr.startswith. simpl.
  destruct (PyStr.eqb (markdown_comment ext) "") eqn:Hp.
  - apply eqb_true in Hp. rewrite Hp. split; [reflexivity|].
    apply Forall_forall. intros line _. destruct line; reflexivity.
  - split; [apply length_map|].
    apply Forall_forall. intros escaped Hin.
    apply list_elem_of_fmap in Hin as (line & -> & _).
    destruct (PyStr.eqb line "").
    + apply prefix_refl.
    + apply prefix_app.
Qed.

(** ** Markdown escaping: what [markdown_unescape] drops *)

Lemma drop_bytes_app (bs s : string) :
  PyStr.drop_bytes (String.length bs) (bs +:+ s) = s.
Proof. induction bs as [|c bs IH]; [reflexivity | exact IH]. Qed.

Lemma len_continuation_app (bs s : string) :
  continuation_bytes bs = true -> PyStr.len (bs +:+ s) = PyStr.len s.
Proof.
  induction bs as [|c bs IH]; simpl; [reflexivity|].
  intros Hc. apply andb_prop in Hc as [Hc Hbs]. rewrite Hc. exact (IH Hbs).
Qed.

Lemma append_assoc (a b c : string) : (a +:+ b) +:+ c = a +:+ (b +:+ c).
Proof.
  induction a as [|x a IH]; [reflexivity|].
  change (String x ((a +:+ b) +:+ c) = String x (a +:+ (b +:+ c))).
  f_equal. exact IH.
Qed.

(** Skipping as many code points as [p] has, on [p] followed by [s],
    leaves [s]. *)
Lemma skip_code_points (p s : string) :
  code_points p -> PyStr.skip (PyStr.len p) (p +:+ s) = s.
Proof.
  induction 1 as [|c bs rest Hc Hlen Hbs Hrest IH]; [reflexivity|].
  replace (String c (bs +:+ rest) +:+ s) with (String c (bs +:+ (rest +:+ s)))
    by (rewrite <- append_assoc; reflexivity).
  change (PyStr.len (String c (bs +:+ rest)))
    with (if PyStr.continuation c then PyStr.len (bs +:+ rest)
          else S (PyStr.len (bs +:+ rest))).
  rewrite Hc, (len_continuation_app bs rest Hbs).
  cbn [PyStr.skip]. rewrite <- Hlen, drop_bytes_app. exact IH.
Qed.

(** Skipping at least as many code points as [line] has leaves
    nothing. *)
Lemma skip_all (line : string) :
  code_points line ->
  forall n, (PyStr.len line <= n)%nat -> PyStr.skip n line = "".
Proof.
  induction 1 as [|c bs rest Hc Hlen Hbs Hrest IH]; intros n Hn.
  - destruct n; reflexivity.
  - change (PyStr.len (String c (bs +:+ rest)))
      with (if PyStr.continuation c then PyStr.len (bs +:+ rest)
            else S (PyStr.len (bs +:+ rest))) in Hn.
    rewrite Hc, (len_continuation_app bs rest Hbs) in Hn.
    destruct n as [|n]; [lia|].
    cbn [PyStr.skip]. rewrite <- Hlen, drop_bytes_app. apply IH. lia.
Qed.

(** X3: with a comment prefix that is not empty (every extension but
    .Rmd), [markdown_unescape] does not look at what it removes: from a
    line that starts with [p], made of as many code points as the prefix
    has, whatever they are and however many bytes each takes, it drops
    [p], and then one space if there is one; a line with no more code
    points than the prefix becomes the empty line. *)
Theorem markdown_unescape_drops_unchecked (ext p s line : string) :
  ext <> ".Rmd" ->
  code_points p ->
  PyStr.len p = PyStr.len (markdown_comment ext) ->
  code_points line ->
  (PyStr.len line <= PyStr.len (markdown_comment ext))%nat ->
  let self := TextNotebookReader.__init__ ext in
  TextNotebookReader.markdown_unescape self (p +:+ s)
  = (if PyStr.startswith s " " then PyStr.skip 1 s else s)
  /\ TextNotebookReader.markdown_unescape self line = "".
Proof.
  intros Hext Hp Hlen Hline Hshort self.
  unfold TextNotebookReader.markdown_unescape. simpl.
  destruct (PyStr.eqb (markdown_comment ext) "") eqn:He.
  - apply eqb_true, markdown_comment_empty in He. contradiction.
  - rewrite <- Hlen, (skip_code_points p s Hp).
    rewrite Hlen, (skip_all line Hline _ Hshort).
    split; reflexivity.
Qed.

(** X3 for .py: the line made of U+65E5 and ["Hello"] is read as
    ["Hello"], like ["# Hello"], and ["#"] is read as the empty line. *)
Lemma markdown_unescape_drops_unchecked_witness :
  let self := TextNotebookReader.__init__ ".py" in
  (TextNotebookReader.markdown_unescape self (U65E5 +:+ "Hello") = "Hello"
   /\ TextNotebookReader.markdown_unescape self "#" = "")
  /\ TextNotebookReader.markdown_unescape self "# Hello" = "Hello".
Proof.
  assert (Hsharp : code_points "#").
  { apply (code_points_cons "#"%char "" "");
      [reflexivity | reflexivity | reflexivity | apply code_points_nil]. }
  intros self. split.
  - apply (markdown_unescape_drops_unchecked ".py" U65E5 "Hello" "#");
      [discriminate | | reflexivity | exact Hsharp | simpl; lia].
    apply (code_points_cons (ascii_of_nat 230)
             (String (ascii_of_nat 151) (String (ascii_of_nat 165) "")) "");
      [reflexivity | reflexivity | reflexivity | apply code_points_nil].
  - apply (markdown_unescape_drops_unchecked ".py" "#" " Hello" "");
      [discriminate | exact Hsharp | reflexivity | apply code_points_nil
      | simpl; lia].
Defined.

(** ** The reader: the cells and the metadata of the result *)

(** [build_notebook] gives a new, well formed notebook and leaves the
    objects of the store, the files and the log as they are. *)
Lemma build_notebook_fresh (cs : list Cell) (md : Metadata) (w : World) :
  exists w' nb,
    build_notebook cs md w = (w', Ok nb)
    /\ view (store w') nb = Some (Build_Notebook cs md)
    /\ notebooks (store w) !! nb = None
    /\ extends (store w) (store w')
    /\ files w' = files w
    /\ log w' = log w.
Proof.
  unfold build_notebook, bind, alloc_dict, alloc_list, alloc_notebook. simpl.
  set (s1 := Build_Store (notebooks (store w))
                         (<[fresh_loc (store w) := md]> (dicts (store w)))
                         (lists (store w))).
  set (s2 := Build_Store (notebooks (store w))
                         (<[fresh_loc (store w) := md]> (dicts (store w)))
                         (<[fresh_loc s1 := cs]> (lists (store w)))).
  eexists _, _. split; [reflexivity|].
  split; [unfold view; simpl; rewrite !lookup_insert_eq; reflexivity|].
  split; [apply (fresh_loc_spec s2)|].
  split; [|split; reflexivity].
  repeat split; simpl; apply insert_subseteq.
  - apply (fresh_loc_spec s2).
  - apply (fresh_loc_spec (store w)).
  - apply (fresh_loc_spec s1).
Qed.

Section ReaderResult.
Context `{Collaborators}.

(** [new_notebook] builds the notebook when it is valid, and raises
    what the validation raises otherwise. *)
Lemma new_notebook_run (cs : list Cell) (md : Metadata) (w : World) :
  new_notebook cs md w
  = match validate (Build_Notebook cs md) with
    | Ok _ => build_notebook cs md w
    | Raise e => (w, Raise e)
    end.
Proof.
  unfold new_notebook, bind, lift.
  destruct (validate (Build_Notebook cs md)); reflexivity.
Qed.

(** The loop of [to_notebook] only adds to the log. *)
Lemma parse_cells_world (ext : string) (lines : list string) (cs : list Cell)
    (w : World) :
  store (TextNotebookReader.parse_cells ext lines cs w).1 = store w
  /\ files (TextNotebookReader.parse_cells ext lines cs w).1 = files w.
Proof.
  destruct (parse_cells_calls ext (length lines) lines cs w (le_n _))
    as (calls & -> & _).
  split; reflexivity.
Qed.

(** The loop of [to_notebook] returns exactly when the lines can be
    cut into cells, and then returns these cells after the ones it was
    given. *)
Lemma parse_cells_segments (ext : string) (n : nat) :
  forall (lines : list string) (cs0 : list Cell) (w : World) (cs' : list Cell),
    (length lines <= n)%nat ->
    (TextNotebookReader.parse_cells ext lines cs0 w).2 = Ok cs'
    <-> exists cs, segments ext lines cs /\ cs' = cs0 ++ cs.
Proof.
  induction n as [|n IH]; intros lines cs0 w cs' Hlen.
  - destruct lines as [|l ls]; [|simpl in Hlen; lia].
    rewrite parse_cells_unfold. simpl. split.
    + intros [= <-]. exists []. split; [constructor | rewrite app_nil_r; reflexivity].
    + intros (cs & Hseg & ->). inversion Hseg; subst.
      * rewrite app_nil_r. reflexivity.
      * congruence.
  - destruct lines as [|l ls].
    + rewrite parse_cells_unfold. simpl. split.
      * intros [= <-]. exists []. split; [constructor | rewrite app_nil_r; reflexivity].
      * intros (cs & Hseg & ->). inversion Hseg; subst.
        -- rewrite app_nil_r. reflexivity.
        -- congruence.
    + rewrite parse_cells_unfold. cbv zeta.
      destruct (text_to_cell ext (l :: ls)) as [[cell pos]|e] eqn:Hcall.
      * destruct (pos <=? 0) eqn:Hpos.
        -- apply Z.leb_le in Hpos. simpl. split; [discriminate|].
           intros (cs & Hseg & _). inversion Hseg; subst.
           rewrite Hcall in *. match goal with
           | Heq : Ok _ = Ok _ |- _ => injection Heq as <- <- end. lia.
        -- apply Z.leb_gt in Hpos.
           rewrite IH by (rewrite length_drop; simpl in *; lia).
           split.
           ++ intros (cs & Hseg & ->). exists (cell :: cs). split.
              ** apply (segments_cell ext (l :: ls) cell pos cs);
                   [discriminate | exact Hcall | exact Hpos | exact Hseg].
              ** rewrite <- app_assoc. reflexivity.
           ++ intros (cs & Hseg & ->). inversion Hseg; subst.
              rewrite Hcall in *. match goal with
              | Heq : Ok _ = Ok _ |- _ => injection Heq as <- <- end.
              eexists. split; [eassumption|].
              rewrite <- app_assoc. reflexivity.
      * simpl. split; [discriminate|].
        intros (cs & Hseg & _). inversion Hseg; subst. congruence.
Qed.

(** For an extension other than .Rmd: the run of [to_notebook] on a
    text whose header is read, whose lines are cut into [cs], and whose
    notebook is valid. *)
Lemma to_notebook_of_segments (self : TextNotebookReader.t) (text : string)
    (w : World) (md : Metadata) (hc : option Cell) (pos : Z) (cs : list Cell) :
  TextNotebookReader.ext self <> ".Rmd" ->
  header_to_metadata_and_cell (TextNotebookReader.ext self) (splitlines text)
  = Ok (md, hc, pos) ->
  segments (TextNotebookReader.ext self)
    (if 0 <? pos then drop (Z.to_nat pos) (splitlines text) else splitlines text)
    cs ->
  validate (Build_Notebook
              (match hc with Some c => [c] | None => [] end ++ cs)
              (if PyStr.eqb (TextNotebookReader.ext self) ".R" then
                 if negb (truthy (py_or (get md "main_language")
                                        (get_default md "language_info" (VDict ∅))))
                 then <["main_language" := VStr "R"]> md else md
               else md))
  = Ok tt ->
  exists w' nb,
    TextNotebookReader.to_notebook self text w = (w', Ok nb)
    /\ view (store w') nb
       = Some (Build_Notebook
                 (match hc with Some c => [c] | None => [] end ++ cs)
                 (if PyStr.eqb (TextNotebookReader.ext self) ".R" then
                    if negb (truthy (py_or (get md "main_language")
                                           (get_default md "language_info" (VDict ∅))))
                    then <["main_language" := VStr "R"]> md else md
                  else md)).
Proof.
  intros Hext Hheader Hseg Hvalid.
  pose proof (to_notebook_run self text w) as Hrun. cbv zeta in Hrun.
  rewrite Hheader in Hrun.
  set (w0 := TextNotebookReader.called
               (CallHeaderToMetadataAndCell (splitlines text)) w) in *.
  set (cs0 := match hc with Some c => [c] | None => [] end) in *.
  set (lines := if 0 <? pos then drop (Z.to_nat pos) (splitlines text)
                else splitlines text) in *.
  assert (Hparse : (TextNotebookReader.parse_cells (TextNotebookReader.ext self)
                      lines cs0 w0).2 = Ok (cs0 ++ cs)).
  { apply (parse_cells_segments _ (length lines)); [apply le_n|].
    exists cs. split; [exact Hseg | reflexivity]. }
  destruct (TextNotebookReader.parse_cells _ lines cs0 w0) as [w1 r].
  simpl in Hparse. subst r.
  apply eqb_false in Hext. rewrite Hext in Hrun.
  destruct (PyStr.eqb (TextNotebookReader.ext self) ".R").
  - destruct (negb _); rewrite Hrun, new_notebook_run, Hvalid;
      match goal with
      | |- context [build_notebook ?c ?m ?w] =>
          destruct (build_notebook_fresh c m w) as (w' & nb & Hnew & Hview & _)
      end; exists w', nb; split; assumption.
  - rewrite Hrun, new_notebook_run, Hvalid.
    destruct (build_notebook_fresh (cs0 ++ cs) md w1)
      as (w' & nb & Hnew & Hview & _).
    exists w', nb. split; assumption.
Qed.

(** For an extension other than .Rmd: when [to_notebook] returns, the
    header was read, the lines were cut into cells and the notebook was
    valid. *)
Lemma to_notebook_returns (self : TextNotebookReader.t) (text : string)
    (w w' : World) (nb : loc) :
  TextNotebookReader.ext self <> ".Rmd" ->
  TextNotebookReader.to_notebook self text w = (w', Ok nb) ->
  exists md hc pos cs,
    header_to_metadata_and_cell (TextNotebookReader.ext self) (splitlines text)
    = Ok (md, hc, pos)
    /\ segments (TextNotebookReader.ext self)
         (if 0 <? pos then drop (Z.to_nat pos) (splitlines text)
          else splitlines text)
         cs
    /\ validate (Build_Notebook
                   (match hc with Some c => [c] | None => [] end ++ cs)
                   (if PyStr.eqb (TextNotebookReader.ext self) ".R" then
                 if negb (truthy (py_or (get md "main_language")
                                        (get_default md "language_info" (VDict ∅))))
                 then <["main_language" := VStr "R"]> md else md
               else md))
       = Ok tt.
Proof.
  intros Hext Hret.
  pose proof (to_notebook_run self text w) as Hrun. cbv zeta in Hrun.
  destruct (header_to_metadata_and_cell _ _) as [[[md hc] pos]|e];
    [|rewrite Hrun in Hret; discriminate].
  set (w0 := TextNotebookReader.called
               (CallHeaderToMetadataAndCell (splitlines text)) w) in *.
  set (cs0 := match hc with Some c => [c] | None => [] end) in *.
  set (lines := if 0 <? pos then drop (Z.to_nat pos) (splitlines text)
                else splitlines text) in *.
  pose proof (parse_cells_segments (TextNotebookReader.ext self) (length lines)
                lines cs0 w0) as Hiff.
  destruct (TextNotebookReader.parse_cells _ lines cs0 w0) as [w1 [cs1|e]];
    [|rewrite Hrun in Hret; discriminate].
  destruct (proj1 (Hiff cs1 (le_n _)) eq_refl) as (cs & Hseg & ->).
  exists md, hc, pos, cs. split; [reflexivity|]. split; [exact Hseg|].
  apply eqb_false in Hext. rewrite Hext in Hrun.
  destruct (PyStr.eqb (TextNotebookReader.ext self) ".R").
  - destruct (negb _); rewrite Hrun, new_notebook_run in Hret;
      match type of Hret with
      | match ?v with _ => _ end = _ => destruct v as [[]|e] eqn:Hvalid
      end; [exact Hvalid | discriminate | exact Hvalid | discriminate].
  - rewrite Hrun, new_notebook_run in Hret.
    match type of Hret with
    | match ?v with _ => _ end = _ => destruct v as [[]|e] eqn:Hvalid
    end; [exact Hvalid | discriminate].
Qed.

(** X4: for an extension other than .Rmd, [to_notebook] returns a
    notebook with the cells [nb_cells] exactly when the header is read,
    the lines after it are cut, by calls of [text_to_cell] that each
    take at least one line, into cells that, after the header cell if
    there is one, make [nb_cells], and the notebook of these cells and of
    the metadata that was read passes the validation of [new_notebook]:
    the order of the cells is the order of the text. *)
Theorem to_notebook_cells_are_segments (self : TextNotebookReader.t)
    (text : string) (w : World) (nb_cells : list Cell) :
  TextNotebookReader.ext self <> ".Rmd" ->
  (exists w' nb n,
      TextNotebookReader.to_notebook self text w = (w', Ok nb)
      /\ view (store w') nb = Some n
      /\ cells n = nb_cells)
  <-> (exists md hc pos cs,
          header_to_metadata_and_cell (TextNotebookReader.ext self) (splitlines text)
          = Ok (md, hc, pos)
          /\ segments (TextNotebookReader.ext self)
               (if 0 <? pos then drop (Z.to_nat pos) (splitlines text)
                else splitlines text)
               cs
          /\ nb_cells = match hc with Some c => [c] | None => [] end ++ cs
          /\ validate (Build_Notebook nb_cells
                         (if PyStr.eqb (TextNotebookReader.ext self) ".R" then
                 if negb (truthy (py_or (get md "main_language")
                                        (get_default md "language_info" (VDict ∅))))
                 then <["main_language" := VStr "R"]> md else md
               else md))
             = Ok tt).
Proof.
  intros Hext. split.
  - intros (w' & nb & n & Hret & Hview & Hcells).
    destruct (to_notebook_returns self text w w' nb Hext Hret)
      as (md & hc & pos & cs & Hheader & Hseg & Hvalid).
    exists md, hc, pos, cs. split; [exact Hheader|]. split; [exact Hseg|].
    destruct (to_notebook_of_segments self text w md hc pos cs Hext Hheader Hseg
                Hvalid) as (w2 & nb2 & Hret2 & Hview2).
    rewrite Hret in Hret2. injection Hret2 as <- <-.
    rewrite Hview in Hview2. injection Hview2 as ->.
    simpl in Hcells. subst nb_cells. split; [reflexivity | exact Hvalid].
  - intros (md & hc & pos & cs & Hheader & Hseg & -> & Hvalid).
    destruct (to_notebook_of_segments self text w md hc pos cs Hext Hheader Hseg
                Hvalid) as (w' & nb & Hret & Hview).
    exists w', nb. eexists. split; [exact Hret|]. split; [exact Hview | reflexivity].
Qed.

(** A parser that takes at least one line of every non empty list cuts
    every list of lines into cells. *)
Lemma advancing_parser_segments (ext : string) :
  (forall lines, lines <> [] ->
     exists cell pos, text_to_cell ext lines = Ok (cell, pos) /\ 0 < pos) ->
  forall n lines, (length lines <= n)%nat -> exists cs, segments ext lines cs.
Proof.
  intros Hadv. induction n as [|n IH]; intros lines Hlen.
  - destruct lines; [|simpl in Hlen; lia]. exists []. constructor.
  - destruct lines as [|l ls]; [exists []; constructor|].
    destruct (Hadv (l :: ls)) as (cell & pos & Hcall & Hpos); [discriminate|].
    destruct (IH (drop (Z.to_nat pos) (l :: ls))) as [cs Hseg].
    { rewrite length_drop. simpl in *. lia. }
    exists (cell :: cs).
    apply (segments_cell ext (l :: ls) cell pos cs);
      [discriminate | exact Hcall | exact Hpos | exact Hseg].
Qed.

(** For an extension other than .Rmd: on a text whose header is read
    and whose lines are cut into [cs], [to_notebook] ends with the call
    of [new_notebook], in a world with the store and the files it
    started with. *)
Lemma to_notebook_ends_with_new_notebook (self : TextNotebookReader.t)
    (text : string) (w : World) (md : Metadata) (hc : option Cell) (pos : Z)
    (cs : list Cell) :
  TextNotebookReader.ext self <> ".Rmd" ->
  header_to_metadata_and_cell (TextNotebookReader.ext self) (splitlines text)
  = Ok (md, hc, pos) ->
  segments (TextNotebookReader.ext self)
    (if 0 <? pos then drop (Z.to_nat pos) (splitlines text) else splitlines text)
    cs ->
  exists w1,
    TextNotebookReader.to_notebook self text w
    = new_notebook
        (match hc with Some c => [c] | None => [] end ++ cs)
        (if PyStr.eqb (TextNotebookReader.ext self) ".R" then
           if negb (truthy (py_or (get md "main_language")
                                  (get_default md "language_info" (VDict ∅))))
           then <["main_language" := VStr "R"]> md else md
         else md)
        w1.
Proof.
  intros Hext Hheader Hseg.
  pose proof (to_notebook_run self text w) as Hrun. cbv zeta in Hrun.
  rewrite Hheader in Hrun.
  set (w0 := TextNotebookReader.called
               (CallHeaderToMetadataAndCell (splitlines text)) w) in *.
  set (cs0 := match hc with Some c => [c] | None => [] end) in *.
  set (lines := if 0 <? pos then drop (Z.to_nat pos) (splitlines text)
                else splitlines text) in *.
  assert (Hparse : (TextNotebookReader.parse_cells (TextNotebookReader.ext self)
                      lines cs0 w0).2 = Ok (cs0 ++ cs)).
  { apply (parse_cells_segments _ (length lines)); [apply le_n|].
    exists cs. split; [exact Hseg | reflexivity]. }
  destruct (TextNotebookReader.parse_cells _ lines cs0 w0) as [w1 r].
  simpl in Hparse. subst r.
  apply eqb_false in Hext. rewrite Hext in Hrun.
  exists w1.
  destruct (PyStr.eqb (TextNotebookReader.ext self) ".R");
    [destruct (negb _)|]; exact Hrun.
Qed.

(** X5: for .py and .R (any extension but .Rmd), when the header codec
    does not raise and [text_to_cell] takes at least one line of every
    non empty list of lines, the loop of the reader never fails and
    always ends: the lines are cut into cells, and [to_notebook] returns
    the notebook of these cells when [new_notebook] finds it valid, and
    raises what the validation raises otherwise. *)
Theorem to_notebook_succeeds_with_advancing_parser
    (self : TextNotebookReader.t) (text : string) (w : World)
    (md : Metadata) (hc : option Cell) (pos : Z) :
  TextNotebookReader.ext self <> ".Rmd" ->
  header_to_metadata_and_cell (TextNotebookReader.ext self) (splitlines text)
  = Ok (md, hc, pos) ->
  (forall lines, lines <> [] ->
     exists cell p,
       text_to_cell (TextNotebookReader.ext self) lines = Ok (cell, p) /\ 0 < p) ->
  exists cs,
    segments (TextNotebookReader.ext self)
      (if 0 <? pos then drop (Z.to_nat pos) (splitlines text) else splitlines text)
      cs
    /\ let n :=
         Build_Notebook
           (match hc with Some c => [c] | None => [] end ++ cs)
           (if PyStr.eqb (TextNotebookReader.ext self) ".R" then
              if negb (truthy (py_or (get md "main_language")
                                     (get_default md "language_info" (VDict ∅))))
              then <["main_language" := VStr "R"]> md else md
            else md) in
       match validate n with
       | Ok _ =>
           exists w' nb,
             TextNotebookReader.to_notebook self text w = (w', Ok nb)
             /\ view (store w') nb = Some n
       | Raise e => (TextNotebookReader.to_notebook self text w).2 = Raise e
       end.
Proof.
  intros Hext Hheader Hadv.
  set (lines := if 0 <? pos then drop (Z.to_nat pos) (splitlines text)
                else splitlines text).
  destruct (advancing_parser_segments _ Hadv (length lines) lines (le_n _))
    as [cs Hseg].
  exists cs. split; [exact Hseg|]. cbv zeta.
  destruct (to_notebook_ends_with_new_notebook self text w md hc pos cs
              Hext Hheader Hseg) as [w1 Hrun].
  rewrite Hrun, new_notebook_run.
  destruct (validate _) as [u|e]; [|reflexivity].
  match goal with
  | |- context [build_notebook ?c ?m ?w] =>
      destruct (build_notebook_fresh c m w) as (w' & nb & Hnew & Hview & _)
  end.
  exists w', nb. split; assumption.
Qed.

(** X6: what reading does to the metadata of the header, for an
    extension other than .Rmd, on a text whose header is read and whose
    lines are cut into cells.  When the extension is not .R, or
    main_language or language_info is true as a Python value, and the
    notebook with the metadata of the header is valid, the notebook that
    is returned has that metadata, unchanged.  When the extension is .R
    and neither is true as a Python value, and the notebook with
    main_language set to 'R' is valid, the notebook that is returned has
    main_language 'R', also over a main_language that was present and
    empty. *)
Theorem reader_language_rule (self : TextNotebookReader.t) (text : string)
    (w : World) (md : Metadata) (hc : option Cell) (pos : Z) (cs : list Cell) :
  TextNotebookReader.ext self <> ".Rmd" ->
  header_to_metadata_and_cell (TextNotebookReader.ext self) (splitlines text)
  = Ok (md, hc, pos) ->
  segments (TextNotebookReader.ext self)
    (if 0 <? pos then drop (Z.to_nat pos) (splitlines text) else splitlines text)
    cs ->
  let nb_cells := match hc with Some c => [c] | None => [] end ++ cs in
  (TextNotebookReader.ext self <> ".R"
   \/ truthy (get md "main_language") = true
   \/ truthy (get_default md "language_info" (VDict ∅)) = true ->
   validate (Build_Notebook nb_cells md) = Ok tt ->
   exists w' nb,
     TextNotebookReader.to_notebook self text w = (w', Ok nb)
     /\ view (store w') nb = Some (Build_Notebook nb_cells md))
  /\ (TextNotebookReader.ext self = ".R" ->
      truthy (get md "main_language") = false ->
      truthy (get_default md "language_info" (VDict ∅)) = false ->
      validate (Build_Notebook nb_cells (<["main_language" := VStr "R"]> md))
      = Ok tt ->
      exists w' nb,
        TextNotebookReader.to_notebook self text w = (w', Ok nb)
        /\ view (store w') nb
           = Some (Build_Notebook nb_cells (<["main_language" := VStr "R"]> md))).
Proof.
  intros Hext Hheader Hseg nb_cells.
  pose proof (to_notebook_of_segments self text w md hc pos cs Hext Hheader Hseg)
    as Hrun.
  fold nb_cells in Hrun. unfold py_or in Hrun.
  split.
  - intros Hkeep Hvalid.
    match type of Hrun with
    | validate (Build_Notebook _ ?m) = _ -> _ => assert (Hmd : m = md)
    end.
    { destruct (PyStr.eqb (TextNotebookReader.ext self) ".R") eqn:HR;
        [|reflexivity].
      apply eqb_true in HR.
      destruct Hkeep as [Hne|[Hmain|Hinfo]]; [contradiction | |].
      - rewrite Hmain. cbv iota. rewrite Hmain. reflexivity.
      - destruct (truthy (get md "main_language")) eqn:Hmain; cbv iota.
        + rewrite Hmain. reflexivity.
        + rewrite Hinfo. reflexivity. }
    rewrite Hmd in Hrun. exact (Hrun Hvalid).
  - intros HR Hmain Hinfo Hvalid.
    match type of Hrun with
    | validate (Build_Notebook _ ?m) = _ -> _ =>
        assert (Hmd : m = <["main_language" := VStr "R"]> md)
    end.
    { rewrite HR. change (PyStr.eqb ".R" ".R") with true. cbv iota.
      rewrite Hmain. cbv iota. rewrite Hinfo. reflexivity. }
    rewrite Hmd in Hrun. exact (Hrun Hvalid).
Qed.

(** X7: [to_notebook] never touches the files; when it raises, the
    store is as it was; when it returns, it returns a new notebook
    object, well formed, and the objects of the store are as they were. *)
Theorem to_notebook_allocation (self : TextNotebookReader.t) (text : string)
    (w : World) :
  let w' := (TextNotebookReader.to_notebook self text w).1 in
  files w' = files w
  /\ match (TextNotebookReader.to_notebook self text w).2 with
     | Raise _ => store w' = store w
     | Ok nb =>
         notebooks (store w) !! nb = None
         /\ extends (store w) (store w')
         /\ is_Some (view (store w') nb)
     end.
Proof.
  intros w'. unfold w'. clear w'.
  pose proof (to_notebook_run self text w) as Hrun. cbv zeta in Hrun.
  destruct (header_to_metadata_and_cell _ _) as [[[md hc] pos]|e];
    [|rewrite Hrun; split; reflexivity].
  match type of Hrun with
  | match TextNotebookReader.parse_cells ?e ?l ?c ?w0 with _ => _ end =>
      pose proof (parse_cells_world e l c w0) as [Hstore Hfiles];
      destruct (TextNotebookReader.parse_cells e l c w0) as [w1 [cs|e1]]
  end; simpl in Hstore, Hfiles;
    [|rewrite Hrun; split; [exact Hfiles | exact Hstore]].
  match type of Hrun with
  | match ?step with _ => _ end => destruct step as [[md' cs']|e2]
  end; [|rewrite Hrun; split; [exact Hfiles | exact Hstore]].
  rewrite Hrun, new_notebook_run.
  destruct (validate (Build_Notebook cs' md')) as [u|e3];
    [|split; [exact Hfiles | exact Hstore]].
  destruct (build_notebook_fresh cs' md' w1)
    as (w2 & nb & Hnew & Hview & Hfresh & Hext & Hf & _).
  rewrite Hnew. simpl.
  split; [congruence|].
  rewrite <- Hstore. split; [exact Hfresh|]. split; [exact Hext|].
  rewrite Hview. eexists. reflexivity.
Qed.

End ReaderResult.

(** X4 on the two lines ["# a"], ["# b"] of a .py script, with the
    parser that makes a cell of every line. *)
Lemma to_notebook_cells_are_segments_witness :
  exists w' nb n,
    TextNotebookReader.to_notebook (H := Steady.collaborators)
      (TextNotebookReader.__init__ ".py") ("# a" +:+ PyStr.LF +:+ "# b") empty_world
    = (w', Ok nb)
    /\ view (store w') nb = Some n
    /\ cells n = [Sample.line_cell "a"; Sample.line_cell "b"].
Proof.
  apply (to_notebook_cells_are_segments (H := Steady.collaborators)
           (TextNotebookReader.__init__ ".py") ("# a" +:+ PyStr.LF +:+ "# b")
           empty_world [Sample.line_cell "a"; Sample.line_cell "b"]).
  - discriminate.
  - exists ∅, None, 0, [Sample.line_cell "a"; Sample.line_cell "b"].
    split; [reflexivity|]. split; [|split; reflexivity].
    apply (segments_cell (H := Steady.collaborators) ".py" ["# a"; "# b"]
             (Sample.line_cell "a") 1); [discriminate | reflexivity | lia |].
    apply (segments_cell (H := Steady.collaborators) ".py" ["# b"]
             (Sample.line_cell "b") 1); [discriminate | reflexivity | lia |].
    apply segments_done.
Defined.

(** X5 with the parser that makes a cell of every line, on a .R script
    of two lines: the notebook is valid, and is returned. *)
Lemma to_notebook_succeeds_with_advancing_parser_witness :
  exists w' nb n,
    TextNotebookReader.to_notebook (H := Steady.collaborators)
      (TextNotebookReader.__init__ ".R") ("#' a" +:+ PyStr.LF +:+ "1+1") empty_world
    = (w', Ok nb)
    /\ view (store w') nb = Some n.
Proof.
  destruct (to_notebook_succeeds_with_advancing_parser (H := Steady.collaborators)
              (TextNotebookReader.__init__ ".R") ("#' a" +:+ PyStr.LF +:+ "1+1")
              empty_world ∅ None 0)
    as (cs & _ & Hrun).
  - discriminate.
  - reflexivity.
  - intros lines Hne. destruct lines as [|line lines]; [contradiction|].
    eexists _, 1. split; [reflexivity | lia].
  - cbv zeta in Hrun.
    match type of Hrun with
    | match ?v with _ => _ end => change v with (Ok tt) in Hrun
    end.
    destruct Hrun as (w' & nb & Hret & Hview).
    exists w', nb. eexists. split; [exact Hret | exact Hview].
Defined.

(** X6 on a .py script: the metadata of the header, here empty, is the
    metadata of the notebook. *)
Lemma reader_language_rule_witness :
  exists w' nb,
    TextNotebookReader.to_notebook (H := Steady.collaborators)
      (TextNotebookReader.__init__ ".py") "# a" empty_world = (w', Ok nb)
    /\ view (store w') nb = Some (Build_Notebook [Sample.line_cell "a"] ∅).
Proof.
  destruct (reader_language_rule (H := Steady.collaborators)
              (TextNotebookReader.__init__ ".py") "# a" empty_world
              ∅ None 0 [Sample.line_cell "a"])
    as [Hkeep _].
  - discriminate.
  - reflexivity.
  - apply (segments_cell (H := Steady.collaborators) ".py" ["# a"]
             (Sample.line_cell "a") 1); [discriminate | reflexivity | lia |].
    apply segments_done.
  - apply Hkeep; [left; discriminate | reflexivity].
Defined.

(** ** The main language of a .R script, written and read *)

Section RDialect.
Context `{Collaborators}.

(** C6 (as amended): when writing .R, a main_language equal to 'R', and
    no other, is deleted from the metadata of the writer's copy before
    the header is rendered from that copy.  When reading .R a document
    whose header is read and whose lines are cut into cells: if the
    header gives neither main_language nor language_info and the
    notebook with main_language 'R' is valid, that notebook is returned;
    if the header gives no main_language and a language_info that is
    true as a Python value, the notebook that is returned, when valid,
    has the metadata of the header, without a main_language.  So a
    main_language 'R' that the writer removed is given back by the
    reader when the metadata has no language_info: a header that carries
    the metadata of the writer's copy is then read as the notebook with
    the metadata the caller had. *)
Theorem R_main_language_normalization (w : World) :
  let writer := TextNotebookWriter.__init__ ".R" in
  let reader := TextNotebookReader.__init__ ".R" in
  (forall nb n,
      view (store w) nb = Some n ->
      (metadata n !! "main_language" = Some (VStr "R") ->
       exists w' copy,
         TextNotebookWriter.writes_prepare writer nb w = (w', Ok (copy, VStr "R"))
         /\ view (store w') copy
            = Some (Build_Notebook (cells n) (delete "main_language" (metadata n)))
         /\ TextNotebookWriter.writes writer nb w
            = TextNotebookWriter.writes_render writer copy (VStr "R") w')
      /\ (metadata n !! "main_language" <> Some (VStr "R") ->
          forall w' copy default_language,
            TextNotebookWriter.writes_prepare writer nb w
            = (w', Ok (copy, default_language)) ->
            view (store w') copy = Some n
            /\ TextNotebookWriter.writes writer nb w
               = TextNotebookWriter.writes_render writer copy default_language w'))
  /\ (forall text md hc pos cs,
        header_to_metadata_and_cell ".R" (splitlines text) = Ok (md, hc, pos) ->
        segments ".R"
          (if 0 <? pos then drop (Z.to_nat pos) (splitlines text)
           else splitlines text)
          cs ->
        let nb_cells := match hc with Some c => [c] | None => [] end ++ cs in
        (md !! "main_language" = None ->
         md !! "language_info" = None ->
         validate (Build_Notebook nb_cells (<["main_language" := VStr "R"]> md))
         = Ok tt ->
         exists w' nb,
           TextNotebookReader.to_notebook reader text w = (w', Ok nb)
           /\ view (store w') nb
              = Some (Build_Notebook nb_cells (<["main_language" := VStr "R"]> md)))
        /\ (forall info,
              md !! "main_language" = None ->
              md !! "language_info" = Some info ->
              truthy info = true ->
              validate (Build_Notebook nb_cells md) = Ok tt ->
              exists w' nb,
                TextNotebookReader.to_notebook reader text w = (w', Ok nb)
                /\ view (store w') nb = Some (Build_Notebook nb_cells md)))
  /\ (forall n text hc pos cs,
        metadata n !! "main_language" = Some (VStr "R") ->
        metadata n !! "language_info" = None ->
        header_to_metadata_and_cell ".R" (splitlines text)
        = Ok (delete "main_language" (metadata n), hc, pos) ->
        segments ".R"
          (if 0 <? pos then drop (Z.to_nat pos) (splitlines text)
           else splitlines text)
          cs ->
        let nb_cells := match hc with Some c => [c] | None => [] end ++ cs in
        validate (Build_Notebook nb_cells (metadata n)) = Ok tt ->
        exists w' nb,
          TextNotebookReader.to_notebook reader text w = (w', Ok nb)
          /\ view (store w') nb = Some (Build_Notebook nb_cells (metadata n))).
Proof.
  intros writer reader.
  assert (Hread : forall text md hc pos cs,
             header_to_metadata_and_cell ".R" (splitlines text)
             = Ok (md, hc, pos) ->
             segments ".R"
               (if 0 <? pos then drop (Z.to_nat pos) (splitlines text)
                else splitlines text)
               cs ->
             let nb_cells := match hc with Some c => [c] | None => [] end ++ cs in
             let md' :=
               if negb (truthy (py_or (get md "main_language")
                                      (get_default md "language_info" (VDict ∅))))
               then <["main_language" := VStr "R"]> md else md in
             validate (Build_Notebook nb_cells md') = Ok tt ->
             exists w' nb,
               TextNotebookReader.to_notebook reader text w = (w', Ok nb)
               /\ view (store w') nb = Some (Build_Notebook nb_cells md')).
  { intros text md hc pos cs Hheader Hseg nb_cells md' Hvalid.
    apply (to_notebook_of_segments reader text w md hc pos cs);
      [discriminate | exact Hheader | exact Hseg | exact Hvalid]. }
  split; [|split].
  - intros nb n Hv.
    destruct (writes_prepare_R writer nb w n eq_refl Hv) as (w' & copy & Hprep & Hview).
    split.
    + intros Hmain.
      assert (Hdl : TextNotebookWriter.script_default_language (metadata n) "R"
                    = Ok (VStr "R")).
      { unfold TextNotebookWriter.script_default_language, get.
        rewrite Hmain. reflexivity. }
      rewrite Hdl in Hprep. simpl in Hprep.
      specialize (Hview _ Hdl).
      apply eq_str_get in Hmain. rewrite Hmain in Hview.
      exists w', copy. split; [exact Hprep|]. split; [exact Hview|].
      unfold TextNotebookWriter.writes, bind. rewrite Hprep. reflexivity.
    + intros Hmain w'' copy' dl Hprep'.
      rewrite Hprep in Hprep'.
      destruct (TextNotebookWriter.script_default_language (metadata n) "R")
        as [v|e] eqn:Hdl; simpl in Hprep'; [|discriminate].
      injection Hprep' as -> -> ->.
      specialize (Hview _ eq_refl).
      destruct (eq_str (get (metadata n) "main_language") "R") eqn:Heq.
      { apply eq_str_get in Heq. contradiction. }
      split.
      * rewrite Hview. destruct n; reflexivity.
      * unfold TextNotebookWriter.writes, bind. rewrite Hprep. reflexivity.
  - intros text md hc pos cs Hheader Hseg nb_cells.
    specialize (Hread text md hc pos cs Hheader Hseg). cbv zeta in Hread.
    fold nb_cells in Hread. unfold py_or, get, get_default in Hread.
    split.
    + intros Hmain Hinfo Hvalid.
      rewrite Hmain, Hinfo in Hread. simpl in Hread. exact (Hread Hvalid).
    + intros info Hmain Hinfo Htrue Hvalid.
      rewrite Hmain, Hinfo in Hread. simpl in Hread. rewrite Htrue in Hread.
      exact (Hread Hvalid).
  - intros n text hc pos cs Hmain Hinfo Hheader Hseg nb_cells Hvalid.
    specialize (Hread text _ hc pos cs Hheader Hseg). cbv zeta in Hread.
    fold nb_cells in Hread. unfold py_or, get, get_default in Hread.
    rewrite lookup_delete_eq in Hread.
    rewrite lookup_delete_ne, Hinfo in Hread by discriminate.
    simpl in Hread.
    rewrite insert_delete_eq, (insert_id (metadata n)) in Hread by exact Hmain.
    exact (Hread Hvalid).
Qed.

End RDialect.

(** C6 at a notebook with main_language 'R' written as .R, and at the
    one line document ["#' a"] read as .R. *)
Lemma R_main_language_normalization_witness :
  (let md : Metadata := <["main_language" := VStr "R"]> ∅ in
   exists w' copy,
     TextNotebookWriter.writes_prepare (H := Sample.collaborators)
       (TextNotebookWriter.__init__ ".R") 1%positive
       (Sample.world_with (Build_Notebook [Sample.code_cell "1+1"] md))
     = (w', Ok (copy, VStr "R"))
     /\ view (store w') copy
        = Some (Build_Notebook [Sample.code_cell "1+1"] (delete "main_language" md))
     /\ TextNotebookWriter.writes (H := Sample.collaborators)
          (TextNotebookWriter.__init__ ".R") 1%positive
          (Sample.world_with (Build_Notebook [Sample.code_cell "1+1"] md))
        = TextNotebookWriter.writes_render (H := Sample.collaborators)
            (TextNotebookWriter.__init__ ".R") copy (VStr "R") w')
  /\ (exists w' nb,
        TextNotebookReader.to_notebook (H := Steady.collaborators)
          (TextNotebookReader.__init__ ".R") "#' a" empty_world = (w', Ok nb)
        /\ view (store w') nb
           = Some (Build_Notebook [Sample.line_cell "a"]
                                  (<["main_language" := VStr "R"]> ∅))).
Proof.
  split.
  - intros md.
    destruct (R_main_language_normalization (H := Sample.collaborators)
                (Sample.world_with (Build_Notebook [Sample.code_cell "1+1"] md)))
      as [Hwrite _].
    destruct (Hwrite 1%positive (Build_Notebook [Sample.code_cell "1+1"] md) eq_refl)
      as [Hremoved _].
    apply Hremoved. reflexivity.
  - destruct (R_main_language_normalization (H := Steady.collaborators) empty_world)
      as (_ & Hread & _).
    destruct (Hread "#' a" ∅ None 0 [Sample.line_cell "a"]) as [Hset _].
    + reflexivity.
    + apply (segments_cell (H := Steady.collaborators) ".R" ["#' a"]
               (Sample.line_cell "a") 1); [discriminate | reflexivity | lia |].
      apply segments_done.
    + apply Hset; reflexivity.
Defined.

(** C6, where it fails: a notebook without cells, with main_language
    'R' and a language_info with the name 'python', written as .R with a
    header that carries both languages, is the text
    ["#' language_info: python"]; read as .R, this text gives a notebook
    with the language_info and no main_language. *)
Lemma R_main_language_lost_counterexample :
  let info : value := VDict {[ "name" := VStr "python" ]} in
  let md : Metadata := <["main_language" := VStr "R"]> (<["language_info" := info]> ∅) in
  let text := "#' language_info: python" in
  (TextNotebookWriter.writes (H := Carry.collaborators)
     (TextNotebookWriter.__init__ ".R") 1%positive
     (Sample.world_with (Build_Notebook [] md))).2
  = Ok text
  /\ (exists w' nb,
        TextNotebookReader.to_notebook (H := Carry.collaborators)
          (TextNotebookReader.__init__ ".R") text empty_world = (w', Ok nb)
        /\ view (store w') nb
           = Some (Build_Notebook [] (<["language_info" := info]> ∅)))
  /\ md !! "main_language" = Some (VStr "R")
  /\ (<["language_info" := info]> ∅ : Metadata) !! "main_language" = None.
Proof.
  cbv zeta. split; [vm_compute; reflexivity|].
  split; [|split; reflexivity].
  eexists _, _. split; vm_compute; reflexivity.
Qed.

(** ** The writer: what each cell adds *)

Section CellLines.
Context `{Collaborators}.

(** X8: when writing .Rmd the text of a cell is never cut, and one
    more blank line is added after a cell exactly when the cell is not a
    code cell and is followed by a cell that is not a code cell. *)
Theorem Rmd_blank_line_rule (self : TextNotebookWriter.t) (cs : list Exporter)
    (texts : list (list string)) (i : nat) (cell : Exporter) (text : list string) :
  TextNotebookWriter.ext self = ".Rmd" ->
  cs !! i = Some cell ->
  texts !! i = Some text ->
  let blanks := replicate (Z.to_nat (skiplines cell)) "" in
  (is_code cell = false ->
   (exists next, cs !! (i + 1)%nat = Some next /\ is_code next = false) ->
   TextNotebookWriter.cell_lines self cs texts i = Ok (text ++ blanks ++ [""]))
  /\ (is_code cell = true
      \/ cs !! (i + 1)%nat = None
      \/ (exists next, cs !! (i + 1)%nat = Some next /\ is_code next = true) ->
      TextNotebookWriter.cell_lines self cs texts i = Ok (text ++ blanks)).
Proof.
  intros Hext Hc Ht blanks.
  unfold TextNotebookWriter.cell_lines, TextNotebookWriter.strip_end_marker.
  rewrite Hc, Ht, Hext.
  change (PyStr.eqb ".Rmd" ".py") with false.
  change (PyStr.eqb ".Rmd" ".Rmd") with true.
  cbn [andb]. split.
  - intros Hcode (next & -> & Hnext). rewrite Hcode, Hnext. reflexivity.
  - intros [Hcode|[Hnone|(next & Hsome & Hnext)]].
    + rewrite Hcode. cbn [negb]. rewrite app_nil_r. reflexivity.
    + rewrite Hnone. destruct (negb (is_code cell)); rewrite app_nil_r; reflexivity.
    + rewrite Hsome, Hnext.
      destruct (negb (is_code cell)); cbn [negb]; rewrite app_nil_r; reflexivity.
Qed.

(** X9: outside .Rmd, a cell adds its whole text and its blank lines,
    and nothing else, when the extension is not .py, or the cell is not
    a code cell (also when its text ends with ['# -']), or its text ends
    with another line than ['# -']. *)
Theorem text_kept_without_marker (self : TextNotebookWriter.t)
    (cs : list Exporter) (texts : list (list string)) (i : nat)
    (cell : Exporter) (text : list string) :
  TextNotebookWriter.ext self <> ".Rmd" ->
  cs !! i = Some cell ->
  texts !! i = Some text ->
  TextNotebookWriter.ext self <> ".py"
  \/ is_code cell = false
  \/ (exists line, last text = Some line /\ line <> "# -") ->
  TextNotebookWriter.cell_lines self cs texts i
  = Ok (text ++ replicate (Z.to_nat (skiplines cell)) "").
Proof.
  intros HRmd Hc Ht Hkeep.
  unfold TextNotebookWriter.cell_lines, TextNotebookWriter.strip_end_marker.
  rewrite Hc, Ht.
  apply eqb_false in HRmd. rewrite HRmd. cbn [andb].
  rewrite app_nil_r.
  destruct Hkeep as [Hpy|[Hcode|(line & Hlast & Hline)]].
  - apply eqb_false in Hpy. rewrite Hpy. reflexivity.
  - rewrite Hcode, andb_false_r. reflexivity.
  - rewrite Hlast. apply eqb_false in Hline. rewrite Hline.
    destruct (PyStr.eqb _ ".py" && is_code cell); reflexivity.
Qed.

(** X10: iteration [i] of the loop of [writes] raises nothing but
    [IndexError], and raises it exactly when there is no cell or no text
    of index [i], or the extension is .py and cell [i] is a code cell
    whose text has no line, or whose text ends with ['# -'] while the
    text of the next cell has no line. *)
Theorem cell_lines_raises (self : TextNotebookWriter.t) (cs : list Exporter)
    (texts : list (list string)) (i : nat) (e : exn) :
  TextNotebookWriter.cell_lines self cs texts i = Raise e
  <-> e = IndexError
      /\ (cs !! i = None
          \/ texts !! i = None
          \/ (TextNotebookWriter.ext self = ".py"
              /\ exists cell text,
                  cs !! i = Some cell
                  /\ texts !! i = Some text
                  /\ is_code cell = true
                  /\ (text = []
                      \/ (last text = Some "# -"
                          /\ texts !! (i + 1)%nat = Some [])))).
Proof.
  unfold TextNotebookWriter.cell_lines, TextNotebookWriter.strip_end_marker.
  destruct (cs !! i) as [cell|] eqn:Hc;
    [|split; [intros [= <-]; split; [reflexivity | left; reflexivity]
             | intros [-> _]; reflexivity]].
  destruct (texts !! i) as [text|] eqn:Ht;
    [|split; [intros [= <-]; split; [reflexivity | right; left; reflexivity]
             | intros [-> _]; reflexivity]].
  destruct (PyStr.eqb (TextNotebookWriter.ext self) ".py") eqn:Hpy.
  - apply eqb_true in Hpy.
    destruct (is_code cell) eqn:Hcode; cbn [andb].
    + destruct (last text) as [marker|] eqn:Hlast.
      * destruct (PyStr.eqb marker "# -") eqn:Hm.
        -- apply eqb_true in Hm. subst marker.
           destruct (texts !! (i + 1)%nat) as [next|] eqn:Hnext.
           ++ destruct next as [|first next]; simpl.
              ** split; [intros [= <-]|intros [-> _]; reflexivity].
                 split; [reflexivity|]. right; right. split; [exact Hpy|].
                 exists cell, text. repeat split; try assumption.
                 right. split; first [assumption | reflexivity].
              ** destruct (PyStr.startswith first "# + {");
                   (split; [discriminate|]);
                   intros (_ & [Hn|[Hn|(_ & c & t & _ & [= <-] & _ & [->|[_ Hn]])]]);
                   discriminate.
           ++ split; [discriminate|].
              intros (_ & [Hn|[Hn|(_ & c & t & _ & [= <-] & _ & [->|[_ Hn]])]]);
                discriminate.
        -- split; [discriminate|].
           intros (_ & [Hn|[Hn|(_ & c & t & _ & [= <-] & _ & [->|[Hl _]])]]);
             try discriminate.
           rewrite Hlast in Hl. injection Hl as ->.
           rewrite eqb_refl in Hm. discriminate.
      * split; [intros [= <-]|intros [-> _]; reflexivity].
        split; [reflexivity|]. right; right. split; [exact Hpy|].
        exists cell, text. repeat split; try assumption.
        left. destruct text as [|l text]; [reflexivity|].
        exfalso. revert Hlast. clear. revert l.
        induction text as [|l' text IH]; intros l; simpl; [discriminate|].
        apply IH.
    + split; [discriminate|].
      intros (_ & [Hn|[Hn|(_ & c & t & [= <-] & _ & Hcode' & _)]]);
        try discriminate. congruence.
  - apply eqb_false in Hpy. cbn [andb]. split; [discriminate|].
    intros (_ & [Hn|[Hn|(Hpy' & _)]]); try discriminate. contradiction.
Qed.

End CellLines.

(** X8 on two markdown cells followed by a code cell: a blank line
    more after the first cell. *)
Lemma Rmd_blank_line_rule_witness :
  TextNotebookWriter.cell_lines (H := Sample.collaborators)
    (TextNotebookWriter.__init__ ".Rmd")
    [Sample.line_cell "a"; Sample.line_cell "b"; Sample.code_cell "1+1"]
    [["a"]; ["b"]; ["1+1"]] 0
  = Ok ["a"; ""; ""].
Proof.
  destruct (Rmd_blank_line_rule (H := Sample.collaborators)
              (TextNotebookWriter.__init__ ".Rmd")
              [Sample.line_cell "a"; Sample.line_cell "b"; Sample.code_cell "1+1"]
              [["a"]; ["b"]; ["1+1"]] 0%nat (Sample.line_cell "a") ["a"]
              eq_refl eq_refl eq_refl) as [Hblank _].
  apply Hblank; [reflexivity|].
  exists (Sample.line_cell "b"). split; reflexivity.
Defined.

(** X9 on a markdown cell of a .py script whose text ends with
    ['# -']: the line is kept. *)
Lemma text_kept_without_marker_witness :
  TextNotebookWriter.cell_lines (H := Sample.collaborators)
    (TextNotebookWriter.__init__ ".py")
    [Sample.line_cell "# -"] [["# a"; "# -"]] 0
  = Ok ["# a"; "# -"; ""].
Proof.
  apply (text_kept_without_marker (H := Sample.collaborators)
           (TextNotebookWriter.__init__ ".py")
           [Sample.line_cell "# -"] [["# a"; "# -"]] 0%nat
           (Sample.line_cell "# -") ["# a"; "# -"]).
  - discriminate.
  - reflexivity.
  - reflexivity.
  - right. left. reflexivity.
Defined.

(** ** The writer: the text of a notebook *)

Lemma view_parts (s : Store) (nb : loc) (n : Notebook) :
  view s nb = Some n ->
  exists lm lc,
    notebooks s !! nb = Some (lm, lc)
    /\ dicts s !! lm = Some (metadata n)
    /\ lists s !! lc = Some (cells n).
Proof.
  unfold view. intros Hv.
  destruct (notebooks s !! nb) as [[lm lc]|]; [|discriminate].
  destruct (dicts s !! lm) as [d|] eqn:Hd; [|discriminate].
  destruct (lists s !! lc) as [cs|] eqn:Hl; [|discriminate].
  injection Hv as <-. exists lm, lc. rewrite Hd, Hl. repeat split.
Qed.

(** A collaborator run on a well formed notebook: the notebook becomes
    what the collaborator returns. *)
Lemma on_notebook_spec {A} (nb : loc) (f : Notebook -> Notebook * result A)
    (w : World) (n n' : Notebook) (r : result A) :
  view (store w) nb = Some n ->
  f n = (n', r) ->
  exists w',
    on_notebook nb f w = (w', r)
    /\ view (store w') nb = Some n'
    /\ files w' = files w
    /\ log w' = log w.
Proof.
  intros Hv Hf.
  destruct (view_parts _ _ _ Hv) as (lm & lc & Hnb & Hd & Hl).
  unfold on_notebook, bind, attr_metadata, attr_cells, load_dict, load_list.
  repeat (rewrite ?Hnb, ?Hd, ?Hl; cbv beta iota).
  replace (Build_Notebook (cells n) (metadata n)) with n by (destruct n; reflexivity).
  rewrite Hf. unfold store_dict, store_list, lift. simpl.
  eexists. split; [reflexivity|].
  split; [|split; reflexivity].
  unfold view. simpl. rewrite Hnb, !lookup_insert_eq. destruct n'; reflexivity.
Qed.

Lemma mapM_lift_Forall2 {A B} (f : A -> result B) (l : list A) (ys : list B)
    (w : World) :
  Forall2 (fun x y => f x = Ok y) l ys ->
  mapM (fun x => lift (f x)) l w = (w, Ok ys).
Proof.
  intros Hall. induction Hall as [|x y l ys Hx _ IH]; [reflexivity|].
  simpl. unfold bind, lift at 1. rewrite Hx. cbv beta iota.
  rewrite IH. reflexivity.
Qed.

Lemma Forall2_results {A B} (f : A -> result B) (l : list A) :
  (forall x, x ∈ l -> exists y, f x = Ok y) ->
  exists ys, Forall2 (fun x y => f x = Ok y) l ys.
Proof.
  induction l as [|x l IH]; intros Hall.
  - exists []. constructor.
  - destruct (Hall x) as [y Hy]; [left|].
    destruct IH as [ys Hys]; [intros x' Hin; apply Hall; right; exact Hin|].
    exists (y :: ys). constructor; assumption.
Qed.

Section WriterText.
Context `{Collaborators}.

(** An iteration of the loop of [writes] that does not raise. *)
Lemma cell_lines_ok (self : TextNotebookWriter.t) (cs : list Exporter)
    (texts : list (list string)) (i : nat) :
  length cs = length texts ->
  (i < length cs)%nat ->
  (TextNotebookWriter.ext self = ".py" -> Forall (fun text => text <> []) texts) ->
  exists lines, TextNotebookWriter.cell_lines self cs texts i = Ok lines.
Proof.
  intros Hlen Hi Hpy.
  destruct (lookup_lt_is_Some_2 cs i Hi) as [cell Hc].
  destruct (lookup_lt_is_Some_2 texts i) as [text Ht]; [lia|].
  unfold TextNotebookWriter.cell_lines, TextNotebookWriter.strip_end_marker.
  rewrite Hc, Ht.
  destruct (PyStr.eqb (TextNotebookWriter.ext self) ".py") eqn:Hext;
    [|cbn [andb]; eexists; reflexivity].
  apply eqb_true in Hext. specialize (Hpy Hext).
  rewrite Forall_forall in Hpy.
  destruct (is_code cell); cbn [andb]; [|eexists; reflexivity].
  destruct (last text) as [marker|] eqn:Hlast.
  - destruct (PyStr.eqb marker "# -"); [|eexists; reflexivity].
    destruct (texts !! (i + 1)%nat) as [next|] eqn:Hnext; [|eexists; reflexivity].
    destruct next as [|first next].
    + exfalso. apply (Hpy []); [|reflexivity].
      apply list_elem_of_lookup. exists (i + 1)%nat. exact Hnext.
    + simpl. destruct (PyStr.startswith first "# + {"); eexists; reflexivity.
  - exfalso. apply (Hpy text).
    + apply list_elem_of_lookup. exists i. exact Ht.
    + destruct text as [|l text]; [reflexivity|].
      exfalso. revert Hlast. clear. revert l.
      induction text as [|l' text IH]; intros l; simpl; [discriminate|].
      apply IH.
Qed.

(** The second part of [writes] when the collaborators return. *)
Lemma writes_render_spec (self : TextNotebookWriter.t) (copy : loc)
    (default_language : value) (w : World) (n n1 n2 : Notebook)
    (l1 l2 : list string) (es : list Exporter) (texts : list (list string)) :
  view (store w) copy = Some n ->
  encoding_and_executable (TextNotebookWriter.ext self) n = (n1, Ok l1) ->
  metadata_and_cell_to_header (TextNotebookWriter.ext self) n1 = (n2, Ok l2) ->
  Forall2 (fun c e => CellExporter c default_language (TextNotebookWriter.ext self)
                      = Ok e) (cells n2) es ->
  Forall2 (fun e text => cell_to_text e = Ok text) es texts ->
  (TextNotebookWriter.ext self = ".py" -> Forall (fun text => text <> []) texts) ->
  exists body,
    Forall2 (fun i lines => TextNotebookWriter.cell_lines self es texts i = Ok lines)
            (seq 0 (length es)) body
    /\ (TextNotebookWriter.writes_render self copy default_language w).2
       = Ok (PyStr.join PyStr.LF (l1 ++ l2 ++ concat body)).
Proof.
  intros Hv Henc Hheader Hes Htexts Hpy.
  destruct (on_notebook_spec copy _ w n n1 _ Hv Henc) as (w1 & Hon1 & Hv1 & _).
  destruct (on_notebook_spec copy _ w1 n1 n2 _ Hv1 Hheader) as (w2 & Hon2 & Hv2 & _).
  destruct (view_parts _ _ _ Hv2) as (lm & lc & Hnb & _ & Hl).
  destruct (Forall2_results (TextNotebookWriter.cell_lines self es texts)
              (seq 0 (length es))) as [body Hbody].
  { intros i Hin. apply list_elem_of_In, in_seq in Hin.
    apply cell_lines_ok; [apply (Forall2_length _ _ _ Htexts) | lia | exact Hpy]. }
  exists body. split; [exact Hbody|].
  unfold TextNotebookWriter.writes_render.
  unfold bind at 1. rewrite Hon1. cbv beta iota.
  unfold bind at 1. rewrite Hon2. cbv beta iota.
  unfold bind at 1, attr_cells. rewrite Hnb. cbv beta iota.
  unfold bind at 1, load_list. rewrite Hl. cbv beta iota.
  unfold bind at 1. rewrite (mapM_lift_Forall2 _ _ _ _ Hes). cbv beta iota.
  unfold bind at 1. rewrite (mapM_lift_Forall2 _ _ _ _ Htexts). cbv beta iota.
  unfold bind at 1. rewrite (mapM_lift_Forall2 _ _ _ _ Hbody). cbv beta iota.
  simpl. rewrite <- app_assoc. reflexivity.
Qed.

(** X11: the text that [writes] gives for .py and .R.  When the
    default language is resolved, the header codec and the exporter of
    every cell return, and (for .py) no cell is rendered as an empty list
    of lines, [writes] returns: its text is the lines of
    [encoding_and_executable], then those of
    [metadata_and_cell_to_header], then what each cell adds in the order
    of the cells, joined by line feeds.  The header codec is given the
    caller's cells and metadata, without a main_language 'R' for .R. *)
Theorem writes_text (self : TextNotebookWriter.t) (nb : loc) (w : World)
    (n n1 n2 : Notebook) (fallback : string) (default_language : value)
    (l1 l2 : list string) (es : list Exporter) (texts : list (list string)) :
  view (store w) nb = Some n ->
  (TextNotebookWriter.ext self = ".py" /\ fallback = "python")
  \/ (TextNotebookWriter.ext self = ".R" /\ fallback = "R") ->
  TextNotebookWriter.script_default_language (metadata n) fallback
  = Ok default_language ->
  encoding_and_executable (TextNotebookWriter.ext self)
    (Build_Notebook (cells n)
       (if PyStr.eqb (TextNotebookWriter.ext self) ".R"
           && eq_str (get (metadata n) "main_language") "R"
        then delete "main_language" (metadata n) else metadata n))
  = (n1, Ok l1) ->
  metadata_and_cell_to_header (TextNotebookWriter.ext self) n1 = (n2, Ok l2) ->
  Forall2 (fun c e => CellExporter c default_language (TextNotebookWriter.ext self)
                      = Ok e) (cells n2) es ->
  Forall2 (fun e text => cell_to_text e = Ok text) es texts ->
  (TextNotebookWriter.ext self = ".py" -> Forall (fun text => text <> []) texts) ->
  exists body,
    Forall2 (fun i lines => TextNotebookWriter.cell_lines self es texts i = Ok lines)
            (seq 0 (length es)) body
    /\ (TextNotebookWriter.writes self nb w).2
       = Ok (PyStr.join PyStr.LF (l1 ++ l2 ++ concat body)).
Proof.
  intros Hv Hext Hdl Henc Hheader Hes Htexts Hpy.
  assert (Hprep : exists w' copy,
             TextNotebookWriter.writes_prepare self nb w
             = (w', Ok (copy, default_language))
             /\ view (store w') copy
                = Some (Build_Notebook (cells n)
                          (if PyStr.eqb (TextNotebookWriter.ext self) ".R"
                              && eq_str (get (metadata n) "main_language") "R"
                           then delete "main_language" (metadata n)
                           else metadata n))).
  { destruct Hext as [[Hext ->]|[Hext ->]].
    - destruct (writes_prepare_py self nb w n Hext Hv) as (w' & copy & Hp & Hview).
      exists w', copy. rewrite Hp, Hdl, Hext. split; [reflexivity|].
      rewrite Hview. destruct n; reflexivity.
    - destruct (writes_prepare_R self nb w n Hext Hv) as (w' & copy & Hp & Hview).
      exists w', copy. rewrite Hp, Hdl, Hext. split; [reflexivity|].
      rewrite (Hview _ Hdl). reflexivity. }
  destruct Hprep as (w' & copy & Hp & Hview).
  destruct (writes_render_spec self copy default_language w' _ n1 n2 l1 l2 es texts
              Hview Henc Hheader Hes Htexts Hpy) as (body & Hbody & Hrender).
  exists body. split; [exact Hbody|].
  unfold TextNotebookWriter.writes, bind. rewrite Hp. exact Hrender.
Qed.

End WriterText.

(** X11 on a .py notebook of a markdown cell and two code cells; the
    second code cell opens with ['# + {}'], so that the first loses its
    end of cell marker, and the last cell loses its own. *)
Lemma writes_text_witness :
  let cs := [Sample.line_cell "# a"; Sample.code_cell "1+1";
             Sample.code_cell "# + {}"] in
  (TextNotebookWriter.writes (H := Sample.collaborators)
     (TextNotebookWriter.__init__ ".py") 1%positive
     (Sample.world_with (Build_Notebook cs ∅))).2
  = Ok (PyStr.join PyStr.LF ["# a"; ""; "1+1"; ""; "# + {}"; ""]).
Proof.
  intros cs.
  destruct (writes_text (H := Sample.collaborators)
              (TextNotebookWriter.__init__ ".py") 1%positive
              (Sample.world_with (Build_Notebook cs ∅))
              (Build_Notebook cs ∅) (Build_Notebook cs ∅) (Build_Notebook cs ∅)
              "python" (VStr "python") [] [] cs
              [["# a"]; ["1+1"; "# -"]; ["# + {}"; "# -"]])
    as (body & Hbody & Htext).
  - reflexivity.
  - left. split; reflexivity.
  - reflexivity.
  - reflexivity.
  - reflexivity.
  - repeat constructor.
  - repeat constructor.
  - intros _. repeat constructor; discriminate.
  - rewrite Htext. clear Htext.
    inversion Hbody as [|i0 b0 ? ? H0 Hbody1]; subst. clear Hbody.
    inversion Hbody1 as [|i1 b1 ? ? H1 Hbody2]; subst. clear Hbody1.
    inversion Hbody2 as [|i2 b2 ? ? H2 Hbody3]; subst. clear Hbody2.
    inversion Hbody3; subst. clear Hbody3.
    vm_compute in H0, H1, H2.
    injection H0 as <-. injection H1 as <-. injection H2 as <-.
    reflexivity.
Defined.

(** ** The entry points: dispatch, streams and files *)

Lemma quiet_ret {A} (a : A) : quiet (ret a).
Proof. intros w. split; reflexivity. Qed.

Lemma quiet_lift {A} (r : result A) : quiet (lift r).
Proof. intros w. split; reflexivity. Qed.

Lemma quiet_bind {A B} (c : M A) (k : A -> M B) :
  quiet c -> (forall a, quiet (k a)) -> quiet (bind c k).
Proof.
  intros Hc Hk w. unfold bind. specialize (Hc w).
  destruct (c w) as [w' [a|e]]; simpl in Hc.
  - destruct Hc as [Hf0 Hl0]. destruct (Hk a w') as [Hf Hl].
    split; [rewrite Hf; exact Hf0 | rewrite Hl; exact Hl0].
  - exact Hc.
Qed.

Lemma quiet_mapM {A B} (f : A -> M B) (l : list A) :
  (forall x, quiet (f x)) -> quiet (mapM f l).
Proof.
  intros Hf. induction l as [|x l IH]; simpl.
  - apply quiet_ret.
  - apply quiet_bind; [apply Hf|]. intros y.
    apply quiet_bind; [exact IH|]. intros ys. apply quiet_ret.
Qed.

Lemma quiet_attr_metadata (nb : loc) : quiet (attr_metadata nb).
Proof.
  intros w. unfold attr_metadata.
  destruct (notebooks (store w) !! nb) as [[lm lc]|]; split; reflexivity.
Qed.

Lemma quiet_attr_cells (nb : loc) : quiet (attr_cells nb).
Proof.
  intros w. unfold attr_cells.
  destruct (notebooks (store w) !! nb) as [[lm lc]|]; split; reflexivity.
Qed.

Lemma quiet_load_dict (l : loc) : quiet (load_dict l).
Proof.
  intros w. unfold load_dict. destruct (dicts (store w) !! l); split; reflexivity.
Qed.

Lemma quiet_load_list (l : loc) : quiet (load_list l).
Proof.
  intros w. unfold load_list. destruct (lists (store w) !! l); split; reflexivity.
Qed.

Lemma quiet_store_dict (l : loc) (d : Metadata) : quiet (store_dict l d).
Proof. intros w. split; reflexivity. Qed.

Lemma quiet_store_list (l : loc) (cs : list Cell) : quiet (store_list l cs).
Proof. intros w. split; reflexivity. Qed.

Lemma quiet_build_notebook (cs : list Cell) (md : Metadata) :
  quiet (build_notebook cs md).
Proof. intros w. split; reflexivity. Qed.

Lemma quiet_on_notebook {A} (nb : loc) (f : Notebook -> Notebook * result A) :
  quiet (on_notebook nb f).
Proof.
  unfold on_notebook.
  apply quiet_bind; [apply quiet_attr_metadata|]. intros lm.
  apply quiet_bind; [apply quiet_attr_cells|]. intros lc.
  apply quiet_bind; [apply quiet_load_dict|]. intros d.
  apply quiet_bind; [apply quiet_load_list|]. intros cs.
  destruct (f (Build_Notebook cs d)) as [nb' r].
  apply quiet_bind; [apply quiet_store_dict|]. intros _.
  apply quiet_bind; [apply quiet_store_list|]. intros _.
  apply quiet_lift.
Qed.

Lemma quiet_deepcopy (nb : loc) : quiet (deepcopy nb).
Proof.
  unfold deepcopy.
  apply quiet_bind; [apply quiet_attr_metadata|]. intros lm.
  apply quiet_bind; [apply quiet_attr_cells|]. intros lc.
  apply quiet_bind; [apply quiet_load_dict|]. intros d.
  apply quiet_bind; [apply quiet_load_list|]. intros cs.
  apply quiet_build_notebook.
Qed.

Section Quiet.
Context `{Collaborators}.

(** The writer of a text format reads and writes no file and logs no
    call. *)
Lemma quiet_writes (self : TextNotebookWriter.t) (nb : loc) :
  quiet (TextNotebookWriter.writes self nb).
Proof.
  unfold TextNotebookWriter.writes, TextNotebookWriter.writes_prepare.
  apply quiet_bind.
  - apply quiet_bind; [apply quiet_deepcopy|]. intros copy.
    apply quiet_bind; [|intros dl; apply quiet_ret].
    unfold TextNotebookWriter.resolve_default_language.
    destruct (PyStr.eqb (TextNotebookWriter.ext self) ".py");
      [|destruct (PyStr.eqb (TextNotebookWriter.ext self) ".R")].
    + apply quiet_bind; [apply quiet_attr_metadata|]. intros lm.
      apply quiet_bind; [apply quiet_load_dict|]. intros md.
      apply quiet_lift.
    + apply quiet_bind; [apply quiet_attr_metadata|]. intros lm.
      apply quiet_bind; [apply quiet_load_dict|]. intros md.
      apply quiet_bind; [apply quiet_lift|]. intros dl.
      apply quiet_bind; [|intros _; apply quiet_ret].
      destruct (eq_str _ _); [apply quiet_store_dict | apply quiet_ret].
    + apply quiet_on_notebook.
  - intros [copy dl]. unfold TextNotebookWriter.writes_render.
    apply quiet_bind; [apply quiet_on_notebook|]. intros lines.
    apply quiet_bind; [apply quiet_on_notebook|]. intros header.
    apply quiet_bind; [apply quiet_attr_cells|]. intros lc.
    apply quiet_bind; [apply quiet_load_list|]. intros nb_cells.
    apply quiet_bind; [apply quiet_mapM; intros x; apply quiet_lift|]. intros cs.
    apply quiet_bind; [apply quiet_mapM; intros x; apply quiet_lift|]. intros texts.
    apply quiet_bind; [apply quiet_mapM; intros x; apply quiet_lift|]. intros body.
    apply quiet_ret.
Qed.

(** X12: for each of the extensions .Rmd, .py and .R the entry points
    run the reader or the writer built for that extension, whose comment
    prefix is [markdown_comment] of the extension, and the arguments
    [as_version] and [version] have no effect; for .ipynb they hand
    over to nbformat, with [as_version] 4 when it is left out. *)
Theorem text_extension_dispatch (ext text fp : string) (nb : loc)
    (as_version version : option Z) :
  (ext = ".Rmd" \/ ext = ".py" \/ ext = ".R" ->
   reads text as_version (Some ext)
   = TextNotebookReader.to_notebook (TextNotebookReader.__init__ ext) text
   /\ read fp as_version (Some ext)
      = TextNotebookReader.read (TextNotebookReader.__init__ ext) fp
   /\ writes nb version (Some ext)
      = TextNotebookWriter.writes (TextNotebookWriter.__init__ ext) nb
   /\ write nb fp version (Some ext)
      = TextNotebookWriter.write (TextNotebookWriter.__init__ ext) nb fp
   /\ TextNotebookReader.prefix (TextNotebookReader.__init__ ext)
      = markdown_comment ext
   /\ TextNotebookWriter.prefix (TextNotebookWriter.__init__ ext)
      = markdown_comment ext)
  /\ reads text as_version (Some ".ipynb")
     = nbformat_reads text (default 4 as_version)
  /\ read fp as_version (Some ".ipynb")
     = nbformat_read fp (default 4 as_version)
  /\ writes nb version (Some ".ipynb") = nbformat_writes nb version
  /\ write nb fp version (Some ".ipynb") = nbformat_write nb fp version.
Proof.
  split; [|repeat split; reflexivity].
  intros [-> | [-> | ->]]; repeat split; reflexivity.
Qed.

(** X13: [readf] on a file whose name has one of the extensions .Rmd,
    .py and .R.  When the file exists, it is opened, read once, its
    content is given to [to_notebook] of the reader of the extension,
    and the stream is closed after that, whether [to_notebook] returns
    or raises; the result is that of [to_notebook].  When the file does
    not exist, opening it fails: nothing is read or parsed. *)
Theorem readf_parses_file_content (nb_file : string) (w : World) :
  let ext := snd (splitext nb_file) in
  ext = ".Rmd" \/ ext = ".py" \/ ext = ".R" ->
  (forall content,
      files w !! nb_file = Some content ->
      let w0 := Build_World (store w) (files w)
                  (log w ++ [IoOpen nb_file "r"; IoRead nb_file]) in
      let run := TextNotebookReader.to_notebook
                   (TextNotebookReader.__init__ ext) content w0 in
      readf nb_file w
      = (Build_World (store run.1) (files run.1) (log run.1 ++ [IoClose nb_file]),
         run.2))
  /\ (files w !! nb_file = None ->
      readf nb_file w
      = (Build_World (store w) (files w) (log w ++ [IoOpen nb_file "r"]),
         Raise (OSError nb_file))).
Proof.
  intros ext Hext.
  assert (Hin : bool_decide (ext ∈ NOTEBOOK_EXTENSIONS) = true).
  { destruct Hext as [-> | [-> | ->]]; reflexivity. }
  assert (Hread : forall fp,
             read fp (Some 4) (Some ext)
             = TextNotebookReader.read (TextNotebookReader.__init__ ext) fp).
  { intros fp. destruct Hext as [-> | [-> | ->]]; reflexivity. }
  split.
  - intros content Hfile w0 run.
    unfold readf. fold ext. rewrite Hin. cbn [negb].
    unfold with_open, bind at 1, io_open, bind at 1, emit.
    cbv beta iota. change (PyStr.eqb "r" "w") with false. cbv beta iota.
    simpl files. rewrite Hfile. cbv beta iota.
    rewrite Hread.
    unfold TextNotebookReader.read, TextNotebookReader.reads, bind at 1,
      fp_read, bind at 1, emit.
    cbv beta iota. simpl files. rewrite Hfile. simpl.
    rewrite <- app_assoc. simpl. fold w0. fold run.
    destruct run as [w1 r]. reflexivity.
  - intros Hfile.
    unfold readf. fold ext. rewrite Hin. cbn [negb].
    unfold with_open, bind at 1, io_open, bind at 1, emit.
    cbv beta iota. change (PyStr.eqb "r" "w") with false. cbv beta iota.
    simpl files. rewrite Hfile. reflexivity.
Qed.

(** X14: [writef] on a file name with one of the extensions .Rmd, .py
    and .R.  The file is created or emptied before the notebook is
    rendered.  When [writes] returns a text, the file holds that text
    and nothing else; when [writes] raises, [writef] raises the same and
    the file is left empty.  The stream is closed in both cases, and no
    other file changes. *)
Theorem writef_replaces_file_content (notebook : loc) (nb_file : string)
    (w : World) :
  let ext := snd (splitext nb_file) in
  ext = ".Rmd" \/ ext = ".py" \/ ext = ".R" ->
  let w0 := Build_World (store w) (<[nb_file := ""]> (files w))
              (log w ++ [IoOpen nb_file "w"]) in
  let run := TextNotebookWriter.writes (TextNotebookWriter.__init__ ext)
               notebook w0 in
  match run.2 with
  | Ok text =>
      writef notebook nb_file w
      = (Build_World (store run.1) (<[nb_file := text]> (files w))
           (log w ++ [IoOpen nb_file "w"; IoWrite nb_file text; IoClose nb_file]),
         Ok tt)
  | Raise e =>
      writef notebook nb_file w
      = (Build_World (store run.1) (<[nb_file := ""]> (files w))
           (log w ++ [IoOpen nb_file "w"; IoClose nb_file]),
         Raise e)
  end.
Proof.
  intros ext Hext w0 run.
  assert (Hin : bool_decide (ext ∈ NOTEBOOK_EXTENSIONS) = true).
  { destruct Hext as [-> | [-> | ->]]; reflexivity. }
  assert (Hwrite : forall fp,
             write notebook fp None (Some ext)
             = TextNotebookWriter.write (TextNotebookWriter.__init__ ext) notebook fp).
  { intros fp. destruct Hext as [-> | [-> | ->]]; reflexivity. }
  destruct (quiet_writes (TextNotebookWriter.__init__ ext) notebook w0)
    as [Hfiles Hlog].
  assert (Hw : writef notebook nb_file w
               = let (w1, r) :=
                   TextNotebookWriter.write (TextNotebookWriter.__init__ ext)
                     notebook nb_file w0 in
                 (Build_World (store w1) (files w1) (log w1 ++ [IoClose nb_file]), r)).
  { unfold writef. fold ext. rewrite Hin. cbn [negb].
    unfold with_open, bind at 1, io_open, bind at 1, emit.
    cbv beta iota. change (PyStr.eqb "w" "w") with true. cbv beta iota.
    rewrite Hwrite. reflexivity. }
  assert (Hwrite' : TextNotebookWriter.write (TextNotebookWriter.__init__ ext)
                      notebook nb_file w0
                    = match run with
                      | (w1, Ok text) => fp_write nb_file text w1
                      | (w1, Raise e) => (w1, Raise e)
                      end).
  { reflexivity. }
  rewrite Hw, Hwrite'. clear Hw Hwrite'.
  fold run in Hfiles, Hlog.
  destruct run as [[s1 f1 l1] [text|e]]; simpl in Hfiles, Hlog; subst f1 l1.
  - unfold fp_write, bind, emit. simpl.
    rewrite lookup_insert_eq. simpl.
    rewrite insert_insert_eq. repeat rewrite <- app_assoc. reflexivity.
  - simpl. repeat rewrite <- app_assoc. reflexivity.
Qed.

End Quiet.

(** X12 for the extension .py. *)
Lemma text_extension_dispatch_witness :
  reads (H := Sample.collaborators) "# a" (Some 3) (Some ".py")
  = TextNotebookReader.to_notebook (H := Sample.collaborators)
      (TextNotebookReader.__init__ ".py") "# a".
Proof.
  destruct (text_extension_dispatch (H := Sample.collaborators)
              ".py" "# a" "notes.py" 1%positive (Some 3) None) as [Htext _].
  apply Htext. right. left. reflexivity.
Defined.

(** X13 on the file notes.py that holds the line ["# a"]. *)
Lemma readf_parses_file_content_witness :
  let w := Build_World empty_store {[ "notes.py" := "# a" ]} [] in
  log (readf (H := Sample.collaborators) "notes.py" w).1
  = [IoOpen "notes.py" "r"; IoRead "notes.py";
     CallHeaderToMetadataAndCell ["# a"]; CallTextToCell ["# a"];
     IoClose "notes.py"].
Proof.
  intros w.
  destruct (readf_parses_file_content (H := Sample.collaborators) "notes.py" w)
    as [Hread _].
  - right. left. reflexivity.
  - rewrite (Hread "# a" eq_refl). reflexivity.
Defined.

(** X14 on the file notes.py, which held an older text: it holds the
    text of the notebook afterwards. *)
Lemma writef_replaces_file_content_witness :
  let w := Build_World
             (store (Sample.world_with
                       (Build_Notebook [Sample.line_cell "# a"] ∅)))
             {[ "notes.py" := "an older text" ]} [] in
  files (writef (H := Sample.collaborators) 1%positive "notes.py" w).1
    !! "notes.py"
  = Some ("# a" +:+ PyStr.LF).
Proof.
  intros w.
  pose proof (writef_replaces_file_content (H := Sample.collaborators)
                1%positive "notes.py" w) as Hwritef.
  cbv zeta in Hwritef.
  specialize (Hwritef (or_intror (or_introl eq_refl))).
  match type of Hwritef with
  | match ?r with _ => _ end =>
      replace r with (@Ok string ("# a" +:+ PyStr.LF)) in Hwritef
        by (vm_compute; reflexivity)
  end.
  rewrite Hwritef. simpl. apply lookup_insert_eq.
Defined.

(** ** The writer: other extensions, and a cell without text *)

Lemma mapM_lift_raises {A B} (f : A -> result B) (l : list A) (w : World)
    (e : exn) :
  (forall x e', x ∈ l -> f x = Raise e' -> e' = e) ->
  (exists x, x ∈ l /\ f x = Raise e) ->
  mapM (fun x => lift (f x)) l w = (w, Raise e).
Proof.
  induction l as [|x l IH]; intros Honly (x0 & Hin & Hx0).
  - apply elem_of_nil in Hin. contradiction.
  - simpl. unfold bind, lift at 1.
    destruct (f x) as [y|e'] eqn:Hx; cbv beta iota.
    + rewrite IH; [reflexivity | |].
      * intros x' e'' Hin'. apply Honly. right. exact Hin'.
      * apply elem_of_cons in Hin as [->|Hin]; [congruence|].
        exists x0. split; assumption.
    + rewrite (Honly x e'); [reflexivity | left | exact Hx].
Qed.

Section WriterOther.
Context `{Collaborators}.

(** The first part of [writes] for an extension that is neither .py
    nor .R: the default language is what [get_default_language] gives
    on the copy. *)
Lemma writes_prepare_other (self : TextNotebookWriter.t) (nb : loc) (w : World)
    (n n0 : Notebook) (r : result value) :
  TextNotebookWriter.ext self <> ".py" ->
  TextNotebookWriter.ext self <> ".R" ->
  view (store w) nb = Some n ->
  get_default_language n = (n0, r) ->
  exists w' copy,
    TextNotebookWriter.writes_prepare self nb w = (w', result_map (pair copy) r)
    /\ view (store w') copy = Some n0.
Proof.
  intros Hpy HR Hv Hget.
  destruct (deepcopy_spec w nb n Hv) as (lm & lc & copy & Hcopy & _).
  unfold TextNotebookWriter.writes_prepare,
    TextNotebookWriter.resolve_default_language, bind at 1.
  rewrite Hcopy. cbv beta iota.
  apply eqb_false in Hpy, HR. rewrite Hpy, HR. cbv beta iota.
  unfold bind at 1.
  match goal with
  | |- context [on_notebook copy get_default_language ?w1] =>
      destruct (on_notebook_spec copy get_default_language w1 n n0 r)
        as (w' & Hon & Hview & _); [|exact Hget|]
  end.
  { unfold view. simpl. rewrite !lookup_insert_eq. destruct n; reflexivity. }
  exists w', copy. split; [|exact Hview].
  rewrite Hon. destruct r; reflexivity.
Qed.

(** Only [IndexError] comes out of an iteration of the loop of
    [writes]. *)
Lemma cell_lines_error (self : TextNotebookWriter.t) (cs : list Exporter)
    (texts : list (list string)) (i : nat) (e : exn) :
  TextNotebookWriter.cell_lines self cs texts i = Raise e -> e = IndexError.
Proof.
  unfold TextNotebookWriter.cell_lines, TextNotebookWriter.strip_end_marker.
  destruct (cs !! i) as [cell|]; [|congruence].
  destruct (texts !! i) as [text|]; [|congruence].
  destruct (PyStr.eqb (TextNotebookWriter.ext self) ".py" && is_code cell);
    [|discriminate].
  destruct (last text) as [marker|]; [|congruence].
  destruct (PyStr.eqb marker "# -"); [|discriminate].
  destruct (texts !! (i + 1)%nat) as [next|]; [|discriminate].
  destruct (head next) as [first|]; [|congruence].
  destruct (PyStr.startswith first "# + {"); discriminate.
Qed.

(** X15: the text that [writes] gives for an extension that is neither
    .py nor .R, such as .Rmd: the default language is asked from
    [get_default_language], on the copy and before the header is
    rendered, and when the collaborators return the writer returns the
    lines of the header followed by what each cell adds, joined by line
    feeds; the end of cell marker plays no part, and no cell makes the
    writer raise. *)
Theorem writes_text_other (self : TextNotebookWriter.t) (nb : loc) (w : World)
    (n n0 n1 n2 : Notebook) (default_language : value)
    (l1 l2 : list string) (es : list Exporter) (texts : list (list string)) :
  TextNotebookWriter.ext self <> ".py" ->
  TextNotebookWriter.ext self <> ".R" ->
  view (store w) nb = Some n ->
  get_default_language n = (n0, Ok default_language) ->
  encoding_and_executable (TextNotebookWriter.ext self) n0 = (n1, Ok l1) ->
  metadata_and_cell_to_header (TextNotebookWriter.ext self) n1 = (n2, Ok l2) ->
  Forall2 (fun c e => CellExporter c default_language (TextNotebookWriter.ext self)
                      = Ok e) (cells n2) es ->
  Forall2 (fun e text => cell_to_text e = Ok text) es texts ->
  exists body,
    Forall2 (fun i lines => TextNotebookWriter.cell_lines self es texts i = Ok lines)
            (seq 0 (length es)) body
    /\ (TextNotebookWriter.writes self nb w).2
       = Ok (PyStr.join PyStr.LF (l1 ++ l2 ++ concat body)).
Proof.
  intros Hpy HR Hv Hget Henc Hheader Hes Htexts.
  destruct (writes_prepare_other self nb w n n0 _ Hpy HR Hv Hget)
    as (w' & copy & Hp & Hview).
  destruct (writes_render_spec self copy default_language w' n0 n1 n2 l1 l2 es texts
              Hview Henc Hheader Hes Htexts) as (body & Hbody & Hrender).
  { intros Hext. contradiction. }
  exists body. split; [exact Hbody|].
  unfold TextNotebookWriter.writes, bind. rewrite Hp. exact Hrender.
Qed.

(** X16: when writing .py, a code cell that its exporter renders as an
    empty list of lines makes [writes] raise [IndexError], although
    every collaborator returned. *)
Theorem writes_py_raises_on_empty_code_text (self : TextNotebookWriter.t)
    (nb : loc) (w : World) (n n1 n2 : Notebook) (default_language : value)
    (l1 l2 : list string) (es : list Exporter) (texts : list (list string))
    (i : nat) (cell : Exporter) :
  TextNotebookWriter.ext self = ".py" ->
  view (store w) nb = Some n ->
  TextNotebookWriter.script_default_language (metadata n) "python"
  = Ok default_language ->
  encoding_and_executable ".py" n = (n1, Ok l1) ->
  metadata_and_cell_to_header ".py" n1 = (n2, Ok l2) ->
  Forall2 (fun c e => CellExporter c default_language ".py" = Ok e) (cells n2) es ->
  Forall2 (fun e text => cell_to_text e = Ok text) es texts ->
  es !! i = Some cell ->
  is_code cell = true ->
  texts !! i = Some [] ->
  (TextNotebookWriter.writes self nb w).2 = Raise IndexError.
Proof.
  intros Hext Hv Hdl Henc Hheader Hes Htexts Hcell Hcode Htext.
  destruct (writes_prepare_py self nb w n Hext Hv) as (w' & copy & Hp & Hview).
  rewrite Hdl in Hp. simpl in Hp.
  destruct (on_notebook_spec copy (encoding_and_executable ".py") w' n n1 _ Hview Henc)
    as (w1 & Hon1 & Hv1 & _).
  destruct (on_notebook_spec copy (metadata_and_cell_to_header ".py") w1 n1 n2 _
              Hv1 Hheader) as (w2 & Hon2 & Hv2 & _).
  destruct (view_parts _ _ _ Hv2) as (lm & lc & Hnb & _ & Hl).
  unfold TextNotebookWriter.writes. unfold bind at 1. rewrite Hp. cbv beta iota.
  unfold TextNotebookWriter.writes_render. rewrite Hext.
  unfold bind at 1. rewrite Hon1. cbv beta iota.
  unfold bind at 1. rewrite Hon2. cbv beta iota.
  unfold bind at 1, attr_cells. rewrite Hnb. cbv beta iota.
  unfold bind at 1, load_list. rewrite Hl. cbv beta iota.
  unfold bind at 1. rewrite (mapM_lift_Forall2 _ _ _ _ Hes). cbv beta iota.
  unfold bind at 1. rewrite (mapM_lift_Forall2 _ _ _ _ Htexts). cbv beta iota.
  unfold bind at 1.
  rewrite (mapM_lift_raises (TextNotebookWriter.cell_lines self es texts)
             (seq 0 (length es)) w2 IndexError).
  - reflexivity.
  - intros x e' _ Hx. exact (cell_lines_error self es texts x e' Hx).
  - exists i. split.
    + apply list_elem_of_In, in_seq. apply lookup_lt_Some in Hcell. lia.
    + unfold TextNotebookWriter.cell_lines, TextNotebookWriter.strip_end_marker.
      rewrite Hcell, Htext, Hext, Hcode. reflexivity.
Qed.

End WriterOther.

(** X15 on an .Rmd notebook of two markdown cells and a code cell: one
    blank line more between the markdown cells, and the end of cell
    marker of the last cell is kept. *)
Lemma writes_text_other_witness :
  let cs := [Sample.line_cell "a"; Sample.line_cell "b"; Sample.code_cell "1+1"] in
  (TextNotebookWriter.writes (H := Sample.collaborators)
     (TextNotebookWriter.__init__ ".Rmd") 1%positive
     (Sample.world_with (Build_Notebook cs ∅))).2
  = Ok (PyStr.join PyStr.LF ["a"; ""; ""; "b"; ""; "1+1"; "# -"; ""]).
Proof.
  intros cs.
  destruct (writes_text_other (H := Sample.collaborators)
              (TextNotebookWriter.__init__ ".Rmd") 1%positive
              (Sample.world_with (Build_Notebook cs ∅))
              (Build_Notebook cs ∅) (Build_Notebook cs ∅) (Build_Notebook cs ∅)
              (Build_Notebook cs ∅) (VStr "python") [] [] cs
              [["a"]; ["b"]; ["1+1"; "# -"]])
    as (body & Hbody & Htext).
  - discriminate.
  - discriminate.
  - reflexivity.
  - reflexivity.
  - reflexivity.
  - reflexivity.
  - repeat constructor.
  - repeat constructor.
  - rewrite Htext. clear Htext.
    inversion Hbody as [|i0 b0 ? ? H0 Hbody1]; subst. clear Hbody.
    inversion Hbody1 as [|i1 b1 ? ? H1 Hbody2]; subst. clear Hbody1.
    inversion Hbody2 as [|i2 b2 ? ? H2 Hbody3]; subst. clear Hbody2.
    inversion Hbody3; subst. clear Hbody3.
    vm_compute in H0, H1, H2.
    injection H0 as <-. injection H1 as <-. injection H2 as <-.
    reflexivity.
Defined.

(** X16 on a .py notebook with a code cell whose source is empty, with
    the exporter that renders a cell as the lines of its source. *)
Lemma writes_py_raises_on_empty_code_text_witness :
  let cs := [Sample.line_cell "# a"; Sample.code_cell ""] in
  (TextNotebookWriter.writes (H := Bare.collaborators)
     (TextNotebookWriter.__init__ ".py") 1%positive
     (Sample.world_with (Build_Notebook cs ∅))).2
  = Raise IndexError.
Proof.
  intros cs.
  apply (writes_py_raises_on_empty_code_text (H := Bare.collaborators)
           (TextNotebookWriter.__init__ ".py") 1%positive
           (Sample.world_with (Build_Notebook cs ∅))
           (Build_Notebook cs ∅) (Build_Notebook cs ∅) (Build_Notebook cs ∅)
           (VStr "python") [] [] cs [["# a"]; []] 1%nat (Sample.code_cell "")).
  - reflexivity.
  - reflexivity.
  - reflexivity.
  - reflexivity.
  - reflexivity.
  - repeat constructor.
  - repeat constructor.
  - reflexivity.
  - reflexivity.
  - reflexivity.
Defined.
